(** * CCDDrone: timing procedures of the Leach controller

    A shallow embedding of [src/LeachControllerTimingProcedures.cpp]:
    [LeachController::CalculateTiming], which turns a duration in
    microseconds into the timing word of a waveform, and the procedures
    that send such a word to the timing board ([ApplyNewIntegralTimeAndGain],
    [ApplyGainAndSpeed], [ApplyNewPedestalIntegralWait], ...).

    - C++ [double] is IEEE 754 binary64, taken from the Standard Library's
      [SpecFloat] (mantissa and exponent over [Z], round to nearest even);
    - C++ [int] is a 32-bit two's complement integer, carried by [Z];
    - the procedures run in a state monad over the controller object, with
      [option] underneath for the one undefined conversion of the source
      (a [double] outside the range of [int]);
    - the two programs [src/CCDDToggleBias.cpp] and
      [src/CCDDPerformEraseProcedure.cpp] are embedded as the value [main]
      returns and the steps it takes. *)

From Stdlib Require Import ZArith QArith Lia List Bool String SpecFloat.
From ExtLib Require Import Structures.Monad Structures.MonadState.
From ExtLib Require Import Data.Monads.StateMonad Data.Monads.OptionMonad.
Import ListNotations.
Import MonadNotation.

Local Open Scope Z_scope.
Local Open Scope monad_scope.

#[local] Existing Instance Monad_stateT.

(* ===================================================================== *)
(** ** C++ [double]: IEEE 754 binary64 *)
(* ===================================================================== *)

Module Double.

Definition prec : Z := 53.
Definition emax : Z := 1024.

(** A [double] is a [spec_float]; the well-formed ones satisfy [valid]. *)
Definition double : Type := spec_float.

Definition valid (x : double) : bool := valid_binary prec emax x.

(** [x * y], [x < y], [x > y] and [x <= y] of C++ on doubles. *)
Definition mul (x y : double) : double := SFmul prec emax x y.
Definition ltb (x y : double) : bool := SFltb x y.
Definition gtb (x y : double) : bool := SFltb y x.
Definition leb (x y : double) : bool := SFleb x y.

(** An integer literal converted to [double], as in [time_in_us > 163]. *)
Definition of_Z (n : Z) : double := binary_normalize prec emax n 0 false.

(** The decimal literal [n / 10^k] (for instance [4.5] is [decimal 45 1]):
    the double nearest to it, obtained by the correctly rounded division
    of two integers that are doubles themselves. *)
Definition decimal (n : Z) (k : Z) : double :=
  SFdiv prec emax (of_Z n) (of_Z (10 ^ k)).

(** The integer part of a finite double, rounded toward zero. *)
Definition truncate (x : double) : option Z :=
  match x with
  | S754_zero _ => Some 0
  | S754_finite s m e =>
      let a := if 0 <=? e then Zpos m * 2 ^ e else Zpos m / 2 ^ (- e) in
      Some (if s then - a else a)
  | S754_infinity _ | S754_nan => None
  end.

Definition INT_MIN : Z := - 2 ^ 31.
Definition INT_MAX : Z := 2 ^ 31 - 1.

(** The conversion [(int) x]: the fractional part is discarded; the
    behaviour is undefined ([None]) when the truncated value is not an
    [int], which includes the infinities and NaN. *)
Definition to_int (x : double) : option Z :=
  match truncate x with
  | Some z => if (INT_MIN <=? z) && (z <=? INT_MAX) then Some z else None
  | None => None
  end.

End Double.

Abbreviation double := Double.double.

(* ===================================================================== *)
(** ** C++ [int]: the operators the source uses *)
(* ===================================================================== *)

Module Int.

(** Reduction of an integer to the 32-bit two's complement range. *)
Definition wrap (z : Z) : Z := (z + 2 ^ 31) mod 2 ^ 32 - 2 ^ 31.

(** [a / b] and [a % b] truncate toward zero. *)
Definition div (a b : Z) : Z := Z.quot a b.
Definition rem (a b : Z) : Z := Z.rem a b.

(** [a | b] and [a << n]. *)
Definition or (a b : Z) : Z := Z.lor a b.
Definition shl (a n : Z) : Z := wrap (Z.shiftl a n).

End Int.

(* ===================================================================== *)
(** ** The controller object and the command transport *)
(* ===================================================================== *)

(** Modelled from the spec: the board identifier [TIM_ID] is a macro of a
    header that is not among the sources ([ArcDefs.h]); the specification
    calls it a fixed symbolic constant, the timing module, and it is kept
    symbolic. *)
Inductive BoardId : Type := TIM_ID.

(** Modelled from the spec: the command words are macros of headers that
    are not among the sources ([ArcDefs.h], [LeachController.hpp]); the
    specification calls them fixed symbolic constants, one per operation,
    and they are kept symbolic. *)
Inductive CommandWord : Type :=
  | CIT   (* set integration time *)
  | SGN   (* set gain and speed *)
  | CPR   (* set pedestal wait *)
  | CPO   (* set signal wait *)
  | DGW   (* set dump-gate width *)
  | OGW   (* set output-gate width *)
  | RSW   (* set reset-gate width *)
  | SWW.  (* set summing-well width *)

(** Modelled from the spec: the reply macro [DON] of [ArcDefs.h], the
    fixed done sentinel. The source itself spells its value out in
    [ApplyNewIntegralTimeAndGain] and [ApplyGainAndSpeed]. *)
Definition DON : Z := 0x00444F4E.

(** What [pArcDev->Command] is handed: the board, the command word and
    the arguments that follow it. *)
Record Request : Type := mkRequest
  { board : BoardId;
    word : CommandWord;
    args : list Z }.

(** [pArcDev] points to an abstract device; all the source needs of it is
    [Command], a blocking round trip that yields the reply. The device may
    change state with every request, so that a reply can depend on all
    that was sent before. *)
Class ArcDevice (Dev : Type) : Type :=
  Command : Dev -> Request -> Z * Dev.

(** What the procedures write to the console. *)
Inductive Output : Type :=
  | OutOfBounds                         (* the two lines of [CalculateTiming] *)
  | ErrorReply (what : string) (dReply : Z).  (* [printf("Error ...: %X\n", dReply)] *)

(** The controller: the one parameter field the procedures write
    ([CCDParams.ItgSpeed]) and the device behind [pArcDev], together with
    two histories kept for the statements below: the requests handed to
    the device and the console output, oldest first. *)
Record LeachController (Dev : Type) : Type := mkController
  { ItgSpeed : Z;
    pArcDev : Dev;
    sent : list Request;
    console : list Output }.

Arguments mkController {Dev}.
Arguments ItgSpeed {Dev}.
Arguments pArcDev {Dev}.
Arguments sent {Dev}.
Arguments console {Dev}.

(** A member function returning [A]. *)
Abbreviation Method Dev := (stateT (LeachController Dev) option).

Section Procedures.

Context {Dev : Type} `{ArcDevice Dev}.

(** Undefined behaviour: the run has no result. *)
Definition undefined {A : Type} : Method Dev A :=
  mkStateT (fun _ => None).

(** [std::cout << ...] and [printf]. *)
Definition print (o : Output) : Method Dev unit :=
  this <- get ;;
  put (mkController (ItgSpeed this) (pArcDev this) (sent this)
                    (console this ++ [o])).

(** [this->CCDParams.ItgSpeed = v]. *)
Definition set_ItgSpeed (v : Z) : Method Dev unit :=
  this <- get ;;
  put (mkController v (pArcDev this) (sent this) (console this)).

(** [pArcDev->Command(b, w, a...)]. *)
Definition pArcDev_Command (b : BoardId) (w : CommandWord) (a : list Z)
  : Method Dev Z :=
  this <- get ;;
  let rq := mkRequest b w a in
  let (dReply, dev) := Command (pArcDev this) rq in
  put (mkController (ItgSpeed this) dev (sent this ++ [rq]) (console this)) ;;
  ret dReply.

(** [(int) x]. *)
Definition cast_int (x : double) : Method Dev Z :=
  match Double.to_int x with
  | Some z => ret z
  | None => undefined
  end.

(** [LeachController::CalculateTiming]. *)
Definition CalculateTiming (time_in_us : double) : Method Dev Z :=
  time_in_us <-
    (if Double.gtb time_in_us (Double.of_Z 163)
     then print OutOfBounds ;; ret (Double.of_Z 163)
     else ret time_in_us) ;;
  let fiTime_ns := Double.mul time_in_us (Double.of_Z 1000) in
  iTime_ns <- cast_int fiTime_ns ;;
  let timing_dsp :=
    if iTime_ns >? 4000 then
      let timing_bigmult := Int.or (Int.div iTime_ns 320) 0x80 in
      timing_bigmult
    else
      let bigreminder :=
        if Int.rem iTime_ns 320 >? 160
        then 320 - Int.rem iTime_ns 320 else Int.rem iTime_ns 320 in
      let littlereminder :=
        if Int.rem iTime_ns 40 >? 20
        then 40 - Int.rem iTime_ns 40 else Int.rem iTime_ns 40 in
      if bigreminder <=? littlereminder then
        let timing_bigmult := Int.or (Int.div iTime_ns 320) 0x80 in
        timing_bigmult
      else
        let timing_littlemult := Int.div iTime_ns 40 in
        timing_littlemult in
  let timing_dsp := Int.shl timing_dsp 16 in
  ret timing_dsp.

(** [LeachController::ApplyGainAndSpeed]. *)
Definition ApplyGainAndSpeed (gain speed : Z) : Method Dev Z :=
  dReply <- pArcDev_Command TIM_ID SGN [gain; speed] ;;
  if dReply =? 0x00444F4E then ret 0
  else print (ErrorReply "Error setting the speed and gain" dReply) ;;
       ret (-1).

(** [LeachController::ApplyNewIntegralTimeAndGain]. The value returned by
    [ApplyGainAndSpeed] is dropped, as in the source. *)
Definition ApplyNewIntegralTimeAndGain (integralTime : double) (gain : Z)
  : Method Dev Z :=
  timing_dsp <- CalculateTiming integralTime ;;
  (if Double.ltb integralTime (Double.decimal 45 1)
   then set_ItgSpeed 1 else set_ItgSpeed 0) ;;
  this <- get ;;
  _ <- ApplyGainAndSpeed gain (ItgSpeed this) ;;
  dReply <- pArcDev_Command TIM_ID CIT [timing_dsp] ;;
  if dReply =? 0x00444F4E then ret 0
  else print (ErrorReply "Error setting the integration time" dReply) ;;
       ret (-1).

(** [LeachController::ApplyNewPedestalIntegralWait]. *)
Definition ApplyNewPedestalIntegralWait (pedestalWaitTime : double) : Method Dev Z :=
  timing_dsp <- CalculateTiming pedestalWaitTime ;;
  dReply <- pArcDev_Command TIM_ID CPR [timing_dsp] ;;
  if dReply =? DON then ret 0
  else print (ErrorReply "Error setting the pedestal wait time" dReply) ;;
       ret (-1).

(** [LeachController::ApplyNewSignalIntegralWait]. *)
Definition ApplyNewSignalIntegralWait (signalWaitTime : double) : Method Dev Z :=
  timing_dsp <- CalculateTiming signalWaitTime ;;
  dReply <- pArcDev_Command TIM_ID CPO [timing_dsp] ;;
  if dReply =? DON then ret 0
  else print (ErrorReply "Error setting the pedestal wait time" dReply) ;;
       ret (-1).

(** [LeachController::ApplyDGWidth]. *)
Definition ApplyDGWidth (newDGWidth : double) : Method Dev Z :=
  timing_dsp <- CalculateTiming newDGWidth ;;
  dReply <- pArcDev_Command TIM_ID DGW [timing_dsp] ;;
  if dReply =? DON then ret 0
  else print (ErrorReply "Error setting the DG width / time" dReply) ;;
       ret (-1).

(** [LeachController::ApplyOGWidth]. *)
Definition ApplyOGWidth (newOGWidth : double) : Method Dev Z :=
  timing_dsp <- CalculateTiming newOGWidth ;;
  dReply <- pArcDev_Command TIM_ID OGW [timing_dsp] ;;
  if dReply =? DON then ret 0
  else print (ErrorReply "Error setting the OG width / time" dReply) ;;
       ret (-1).

(** [LeachController::ApplySkippingRGWidth]. *)
Definition ApplySkippingRGWidth (newRGWidth : double) : Method Dev Z :=
  timing_dsp <- CalculateTiming newRGWidth ;;
  dReply <- pArcDev_Command TIM_ID RSW [timing_dsp] ;;
  if dReply =? DON then ret 0
  else print (ErrorReply "Error setting the RG width / time" dReply) ;;
       ret (-1).

(** [LeachController::ApplySummingWellWidth]. *)
Definition ApplySummingWellWidth (newSWWidth : double) : Method Dev Z :=
  timing_dsp <- CalculateTiming newSWWidth ;;
  dReply <- pArcDev_Command TIM_ID SWW [timing_dsp] ;;
  if dReply =? DON then ret 0
  else print (ErrorReply "Error setting the SW width / time" dReply) ;;
       ret (-1).

End Procedures.

(** A device that answers from a script: each request consumes the next
    reply; once the script is exhausted it answers [DON]. *)
#[export] Instance ScriptedDevice : ArcDevice (list Z) :=
  fun script _ =>
    match script with
    | [] => (DON, [])
    | r :: rest => (r, rest)
    end.

Definition fresh (script : list Z) : LeachController (list Z) :=
  mkController 0 script [] [].

(* ===================================================================== *)
(** ** Views of [CalculateTiming] *)
(* ===================================================================== *)

(** The durations of the specification: well-formed doubles that are
    not negative (and so not NaN). *)
Definition is_duration (d : double) : Prop :=
  Double.valid d = true /\ Double.leb (Double.of_Z 0) d = true.

(** [time_in_us] after the first statement of [CalculateTiming]. *)
Definition clamped (time_in_us : double) : double :=
  if Double.gtb time_in_us (Double.of_Z 163) then Double.of_Z 163 else time_in_us.

(** [iTime_ns] as [CalculateTiming] computes it from its argument. *)
Definition iTime_ns_of (time_in_us : double) : option Z :=
  Double.to_int (Double.mul (clamped time_in_us) (Double.of_Z 1000)).

(** The two remainders of the second branch. *)
Definition bigreminder_of (iTime_ns : Z) : Z :=
  if Int.rem iTime_ns 320 >? 160
  then 320 - Int.rem iTime_ns 320 else Int.rem iTime_ns 320.

Definition littlereminder_of (iTime_ns : Z) : Z :=
  if Int.rem iTime_ns 40 >? 20
  then 40 - Int.rem iTime_ns 40 else Int.rem iTime_ns 40.

(** Whether [CalculateTiming] counts in steps of 320 ns. *)
Definition coarse (iTime_ns : Z) : bool :=
  (iTime_ns >? 4000) || (bigreminder_of iTime_ns <=? littlereminder_of iTime_ns).

(** [timing_dsp] before and after the shift. *)
Definition timing_byte_of (iTime_ns : Z) : Z :=
  if coarse iTime_ns
  then Int.or (Int.div iTime_ns 320) 0x80
  else Int.div iTime_ns 40.

Definition timing_dsp_of (iTime_ns : Z) : Z :=
  Int.shl (timing_byte_of iTime_ns) 16.

(** The controller after the console line of an argument above 163. *)
Definition warned {Dev : Type} (time_in_us : double)
  (this : LeachController Dev) : LeachController Dev :=
  if Double.gtb time_in_us (Double.of_Z 163)
  then mkController (ItgSpeed this) (pArcDev this) (sent this)
                    (console this ++ [OutOfBounds])
  else this.

(** The outcome of a procedure, read off the reply it compares. *)
Definition outcome (dReply : Z) : Z := if dReply =? DON then 0 else -1.

(** The controller after one round trip: the device has moved on, the
    request is on record and a reply other than [DON] is on the console. *)
Definition after_Command {Dev : Type} `{ArcDevice Dev}
  (rq : Request) (what : string) (this : LeachController Dev)
  : LeachController Dev :=
  let dReply := fst (Command (pArcDev this) rq) in
  mkController (ItgSpeed this) (snd (Command (pArcDev this) rq))
    (sent this ++ [rq])
    (console this ++ if dReply =? DON then [] else [ErrorReply what dReply]).

(** A run that ends with outcome 0 exactly when the device, in state
    [dev], answers [DON] to the request [rq], and with -1 otherwise. *)
Definition reports_reply {Dev : Type} `{ArcDevice Dev}
  (run : option (Z * LeachController Dev)) (dev : Dev) (rq : Request) : Prop :=
  exists (r : Z) (this' : LeachController Dev),
    run = Some (r, this') /\
    (r = 0 <-> fst (Command dev rq) = DON) /\
    (r = -1 <-> fst (Command dev rq) <> DON).

(** The bit field [hi..lo] of a word. *)
Definition bits (hi lo : Z) (w : Z) : Z :=
  Z.land (Z.shiftr w lo) (Z.ones (hi - lo + 1)).

(** The exact value of a finite double, as a fraction. *)
Definition value (x : double) : option Q :=
  match x with
  | S754_zero _ => Some 0%Q
  | S754_finite s m e =>
      let n := if s then Zneg m else Zpos m in
      Some (if 0 <=? e then inject_Z (n * 2 ^ e)
            else Qmake n (Z.to_pos (2 ^ (- e))))
  | S754_infinity _ | S754_nan => None
  end.

(** [this] with [CCDParams.ItgSpeed] set to [v]. *)
Definition with_ItgSpeed {Dev : Type} (v : Z) (this : LeachController Dev)
  : LeachController Dev :=
  mkController v (pArcDev this) (sent this) (console this).

(** The speed [ApplyNewIntegralTimeAndGain] selects: 1 is fast, 0 is slow. *)
Definition speed_of (integralTime : double) : Z :=
  if Double.ltb integralTime (Double.decimal 45 1) then 1 else 0.

(** The request that carries a timing word. *)
Definition timing_request (w : CommandWord) (iTime_ns : Z) : Request :=
  mkRequest TIM_ID w [timing_dsp_of iTime_ns].

(* ===================================================================== *)
(** ** The timing byte read back, and sequences of calls *)
(* ===================================================================== *)

(** The time a timing byte stands for, in nanoseconds, as the header
    comment of [CalculateTiming] gives it: with the 8th bit set it is
    320 ns times the number in the 1st to 7th bit, with the 8th bit clear
    it is 40 ns times that number. *)
Definition timing_ns (byte : Z) : Z :=
  if Z.testbit byte 7 then 320 * Z.land byte 0x7F else 40 * Z.land byte 0x7F.

(** A call of one of the procedures, with its arguments. *)
Inductive Call : Type :=
  | CallIntegralTimeAndGain (integralTime : double) (gain : Z)
  | CallGainAndSpeed (gain speed : Z)
  | CallPedestalIntegralWait (pedestalWaitTime : double)
  | CallSignalIntegralWait (signalWaitTime : double)
  | CallDGWidth (newDGWidth : double)
  | CallOGWidth (newOGWidth : double)
  | CallSkippingRGWidth (newRGWidth : double)
  | CallSummingWellWidth (newSWWidth : double).

(** The call made. *)
Definition perform {Dev : Type} `{ArcDevice Dev} (c : Call) : Method Dev Z :=
  match c with
  | CallIntegralTimeAndGain integralTime gain =>
      ApplyNewIntegralTimeAndGain integralTime gain
  | CallGainAndSpeed gain speed => ApplyGainAndSpeed gain speed
  | CallPedestalIntegralWait d => ApplyNewPedestalIntegralWait d
  | CallSignalIntegralWait d => ApplyNewSignalIntegralWait d
  | CallDGWidth d => ApplyDGWidth d
  | CallOGWidth d => ApplyOGWidth d
  | CallSkippingRGWidth d => ApplySkippingRGWidth d
  | CallSummingWellWidth d => ApplySummingWellWidth d
  end.

(** Calls made one after the other on the same controller; the values
    they return, in order. *)
Fixpoint perform_all {Dev : Type} `{ArcDevice Dev} (l : list Call)
  : Method Dev (list Z) :=
  match l with
  | [] => ret []
  | c :: l' =>
      r <- perform c ;;
      rs <- perform_all l' ;;
      ret (r :: rs)
  end.

(** A call whose time argument is a duration. *)
Definition call_ok (c : Call) : Prop :=
  match c with
  | CallIntegralTimeAndGain integralTime _ => is_duration integralTime
  | CallGainAndSpeed _ _ => True
  | CallPedestalIntegralWait d | CallSignalIntegralWait d
  | CallDGWidth d | CallOGWidth d
  | CallSkippingRGWidth d | CallSummingWellWidth d => is_duration d
  end.

(** The requests a call is made of, read off its arguments alone. *)
Definition timing_requests (w : CommandWord) (d : double) : option (list Request) :=
  option_map (fun n => [timing_request w n]) (iTime_ns_of d).

Definition requests_of (c : Call) : option (list Request) :=
  match c with
  | CallIntegralTimeAndGain integralTime gain =>
      option_map
        (fun n => [mkRequest TIM_ID SGN [gain; speed_of integralTime];
                   timing_request CIT n])
        (iTime_ns_of integralTime)
  | CallGainAndSpeed gain speed => Some [mkRequest TIM_ID SGN [gain; speed]]
  | CallPedestalIntegralWait d => timing_requests CPR d
  | CallSignalIntegralWait d => timing_requests CPO d
  | CallDGWidth d => timing_requests DGW d
  | CallOGWidth d => timing_requests OGW d
  | CallSkippingRGWidth d => timing_requests RSW d
  | CallSummingWellWidth d => timing_requests SWW d
  end.

Fixpoint requests_of_all (l : list Call) : option (list Request) :=
  match l with
  | [] => Some []
  | c :: l' =>
      match requests_of c, requests_of_all l' with
      | Some a, Some b => Some (a ++ b)
      | _, _ => None
      end
  end.

(** The speed of the last [CallIntegralTimeAndGain] of a list of calls,
    and [v] when there is none. *)
Definition speed_after (v : Z) (l : list Call) : Z :=
  fold_left
    (fun v c =>
       match c with
       | CallIntegralTimeAndGain integralTime _ => speed_of integralTime
       | _ => v
       end) l v.

(** Whether a call writes [CCDParams.ItgSpeed]. *)
Definition sets_speed (c : Call) : bool :=
  match c with
  | CallIntegralTimeAndGain _ _ => true
  | _ => false
  end.

(** A run of a procedure on the duration [d] that makes one round trip
    with the command word [w]: the reply decides the value returned, the
    speed stays, the request is on record, and the console has the line
    of [CalculateTiming] if [d] is above 163 and then the line [what]
    with the reply, if that is not [DON]. *)
Definition one_round_trip {Dev : Type} `{ArcDevice Dev}
  (w : CommandWord) (what : string) (d : double)
  (this : LeachController Dev) (run : option (Z * LeachController Dev)) : Prop :=
  exists n : Z,
    iTime_ns_of d = Some n /\
    let rq := mkRequest TIM_ID w [timing_dsp_of n] in
    let dReply := fst (Command (pArcDev this) rq) in
    run = Some
      (if dReply =? DON then 0 else -1,
       mkController (ItgSpeed this) (snd (Command (pArcDev this) rq))
         (sent this ++ [rq])
         (console this
          ++ (if Double.gtb d (Double.of_Z 163) then [OutOfBounds] else [])
          ++ (if dReply =? DON then [] else [ErrorReply what dReply]))).

(** The console lines about replies. *)
Definition is_ErrorReply (o : Output) : bool :=
  match o with
  | ErrorReply _ _ => true
  | OutOfBounds => false
  end.

(** A device that answers [DON] to everything. *)
#[export] Instance AcknowledgingDevice : ArcDevice unit :=
  fun _ _ => (DON, tt).

(* ===================================================================== *)
(** ** The two programs *)
(* ===================================================================== *)

(** [src/CCDDToggleBias.cpp]. The constructor of [LeachController] and
    [CCDBiasToggle] are not among the sources; what [main] does with them
    is kept as a record of its steps, each taken to return. [atof] is the
    C library's and is a parameter. *)
Module CCDDToggleBias.

Inductive Step : Type :=
  | Cerr (text : string)
  | Cout (text : string)
  | Endl
  | Construct (configFileName : string)
  | SetBattRelay (volts : double)
  | CCDBiasToggle (on : bool).

(** [main]: the value returned and the steps taken. [argv] holds the
    program name and the arguments, [argc] is its length. *)
Definition main (atof : string -> double) (argv : list string) : Z * list Step :=
  let argc := Z.of_nat (List.length argv) in
  let configFileName := EmptyString in
  let direction := if argc >? 1 then nth 1 argv EmptyString else EmptyString in
  if negb (direction =? "on")%string && negb (direction =? "1")%string
     && negb (direction =? "off")%string && negb (direction =? "0")%string
  then (1, [Cerr "Usage: ./CCDDToggleBias <on|off> [<volts=4.88>]"])
  else
    let on := ((direction =? "on") || (direction =? "1"))%string in
    let volts :=
      if argc >? 2 then atof (nth 2 argv EmptyString) else Double.decimal 488 2 in
    (0, [Cout "Switching relay bias ";
         Cout (if on then "on" else "off");
         Cout "...";
         Construct configFileName;
         SetBattRelay volts;
         CCDBiasToggle on;
         Cout " OK!";
         Endl]).

End CCDDToggleBias.

(** [src/CCDDPerformEraseProcedure.cpp]. The constructor and the three
    procedures [main] calls are not among the sources; the steps of [main]
    are recorded, each taken to return, and what
    [LoadAndCheckForSettingsChange] yields (the status it returns and the
    two flags it is handed) is a parameter. The texts keep the escapes of
    the source as written. *)
Module CCDDPerformEraseProcedure.

Inductive Step : Type :=
  | Cout (text : string)
  | SleepSeconds (n : Z)
  | Construct (configFileName : string)
  | LoadAndCheckForSettingsChange
  | PerformEraseProcedure
  | IdleClockToggle.

(** [main]: the value returned (the function ends without a [return],
    which in [main] is 0) and the steps taken. *)
Definition main (settings : Z * bool * bool) : Z * list Step :=
  let '(_CCDSettingsStatus, config, sequencer) := settings in
  (0,
   [Cout "This code will perform an erase procedure.\n";
    Cout "The process starts in 10 seconds.\n";
    SleepSeconds 10;
    Construct "config/Config.ini";
    LoadAndCheckForSettingsChange]
   ++
   (if _CCDSettingsStatus =? 0 then
      [SleepSeconds 5;
       PerformEraseProcedure;
       IdleClockToggle;
       Cout "Leach system is now ready to take data.\n"]
    else
      (if config
       then [Cout "Error: The config file has changed but the new settings were not uploaded.\n"]
       else [])
      ++
      (if sequencer
       then [Cout "Error: The sequencer has changed but it was not uploaded.\n"]
       else [])
      ++
      [Cout "Erase procedure was not performed. Please resolve the conflicts in the config section first.\n"])).

End CCDDPerformEraseProcedure.

(* ===================================================================== *)
(** ** Facts on binary64 rounding *)
(* ===================================================================== *)

Module DoubleFacts.

Import Double.

Lemma pow2_pos (n : Z) : 0 <= n -> 0 < 2 ^ n.
Proof. intros; apply Z.pow_pos_nonneg; lia. Qed.

Ltac pow2 :=
  match goal with
  | |- 0 < 2 ^ _ => apply pow2_pos; lia
  | |- 2 ^ ?n <> 0 => assert (0 < 2 ^ n) by (apply pow2_pos; lia); lia
  | |- 0 <= 2 ^ ?n => assert (0 < 2 ^ n) by (apply pow2_pos; lia); lia
  | |- 2 <> 0 => lia
  | |- 0 < 2 => lia
  end.

Lemma digits2_pos_size (m : positive) : digits2_pos m = Pos.size m.
Proof. induction m; simpl; congruence. Qed.

(** A positive number of [k] binary digits lies in [2^(k-1), 2^k). *)
Lemma digits2_bounds (m : positive) :
  2 ^ (Zpos (digits2_pos m) - 1) <= Zpos m < 2 ^ Zpos (digits2_pos m).
Proof.
  rewrite digits2_pos_size. split.
  - pose proof (Pos.size_le m) as Hle.
    assert (Hpow : 2 ^ Zpos (Pos.size m) <= 2 * Zpos m).
    { change 2 with (Zpos 2) at 1. rewrite <- Pos2Z.inj_pow.
      change (2 * Zpos m) with (Zpos m~0). now apply Pos2Z.pos_le_pos. }
    replace (Zpos (Pos.size m)) with (Z.succ (Zpos (Pos.size m) - 1)) in Hpow by lia.
    rewrite Z.pow_succ_r in Hpow by lia. lia.
  - pose proof (Pos.size_gt m) as Hgt.
    change 2 with (Zpos 2). rewrite <- Pos2Z.inj_pow. now apply Pos2Z.pos_lt_pos.
Qed.

Lemma shr_1_m (r : shr_record) :
  0 <= shr_m r -> shr_m (shr_1 r) = shr_m r / 2.
Proof.
  destruct r as [m b s]; simpl. intros Hm.
  destruct m as [|p|p]; [reflexivity| |lia].
  destruct p as [p|p|]; simpl shr_m.
  - rewrite Pos2Z.inj_xI. apply Z.div_unique with (r := 1); lia.
  - rewrite Pos2Z.inj_xO. apply Z.div_unique with (r := 0); lia.
  - reflexivity.
Qed.

Lemma iter_shr_1_m (p : positive) : forall r : shr_record,
  0 <= shr_m r -> shr_m (iter_pos shr_1 p r) = shr_m r / 2 ^ Zpos p.
Proof.
  induction p as [p IH|p IH|]; intros r Hr; simpl iter_pos.
  - assert (H1 : 0 <= shr_m (shr_1 r)).
    { rewrite shr_1_m by assumption. apply Z.div_pos; lia. }
    assert (H2 : 0 <= shr_m (iter_pos shr_1 p (shr_1 r))).
    { rewrite IH by assumption. apply Z.div_pos; [assumption|pow2]. }
    rewrite IH, IH, shr_1_m by assumption.
    rewrite Z.div_div by pow2. rewrite Z.div_div
      by (try pow2; pose proof (pow2_pos (Zpos p)); nia).
    f_equal. rewrite (Pos2Z.inj_xI p).
    replace (2 * Zpos p + 1) with (1 + Zpos p + Zpos p) by lia.
    rewrite !Z.pow_add_r by lia. lia.
  - assert (H2 : 0 <= shr_m (iter_pos shr_1 p r)).
    { rewrite IH by assumption. apply Z.div_pos; [assumption|pow2]. }
    rewrite IH, IH by assumption.
    rewrite Z.div_div by pow2.
    f_equal. rewrite (Pos2Z.inj_xO p).
    replace (2 * Zpos p) with (Zpos p + Zpos p) by lia.
    rewrite Z.pow_add_r by lia. reflexivity.
  - rewrite shr_1_m by assumption. reflexivity.
Qed.

(** [shr_fexp] divides the mantissa by the power of two that brings the
    exponent up to the one [fexp] asks for, and by nothing when the
    exponent is already there. *)
Lemma shr_fexp_m (m e : Z) (l : location) :
  0 <= m ->
  let n := Z.max 0 (fexp prec emax (Zdigits2 m + e) - e) in
  shr_m (fst (shr_fexp prec emax m e l)) = m / 2 ^ n /\
  snd (shr_fexp prec emax m e l) = e + n.
Proof.
  intros Hm n. unfold shr_fexp, shr. subst n.
  assert (Hrec : shr_m (shr_record_of_loc m l) = m).
  { destruct l as [|[]]; reflexivity. }
  destruct (fexp prec emax (Zdigits2 m + e) - e) as [|p|p] eqn:Hn; simpl fst; simpl snd.
  - rewrite Hrec. simpl. rewrite Z.div_1_r. lia.
  - rewrite iter_shr_1_m by lia. rewrite Hrec.
    replace (Z.max 0 (Zpos p)) with (Zpos p) by lia. split; reflexivity.
  - rewrite Hrec. replace (Z.max 0 (Zneg p)) with 0 by lia.
    simpl. rewrite Z.div_1_r. lia.
Qed.

Lemma round_nearest_even_bounds (m : Z) (l : location) :
  m <= round_nearest_even m l <= m + 1.
Proof.
  destruct l as [|[]]; simpl; try lia.
  destruct (Z.even m); lia.
Qed.

(** The two steps of [binary_round_aux] on an exact positive mantissa:
    a shift by [n1], a rounding that adds at most one, and a second
    shift by [n2]. *)
Lemma binary_round_aux_exact (sx : bool) (M E : Z) :
  0 < M ->
  exists n1 m2 n2 : Z,
    n1 = Z.max 0 (fexp prec emax (Zdigits2 M + E) - E) /\
    M / 2 ^ n1 <= m2 <= M / 2 ^ n1 + 1 /\
    n2 = Z.max 0 (fexp prec emax (Zdigits2 m2 + (E + n1)) - (E + n1)) /\
    binary_round_aux prec emax sx M E loc_Exact =
      match m2 / 2 ^ n2 with
      | Z0 => S754_zero sx
      | Zpos m => if E + n1 + n2 <=? emax - prec
                  then S754_finite sx m (E + n1 + n2) else S754_infinity sx
      | Zneg _ => S754_nan
      end.
Proof.
  intros HM. unfold binary_round_aux.
  destruct (shr_fexp_m M E loc_Exact) as [Hm1 He1]; [lia|].
  destruct (shr_fexp prec emax M E loc_Exact) as [mrs1 e1]; simpl fst in *; simpl snd in *.
  set (n1 := Z.max 0 (fexp prec emax (Zdigits2 M + E) - E)) in *.
  set (m2 := round_nearest_even (shr_m mrs1) (loc_of_shr_record mrs1)).
  assert (Hm2 : M / 2 ^ n1 <= m2 <= M / 2 ^ n1 + 1).
  { rewrite <- Hm1. apply round_nearest_even_bounds. }
  assert (H0 : 0 <= m2).
  { assert (0 <= M / 2 ^ n1) by (apply Z.div_pos; [lia|pow2]). lia. }
  destruct (shr_fexp_m m2 e1 loc_Exact H0) as [Hm3 He3].
  destruct (shr_fexp prec emax m2 e1 loc_Exact) as [mrs3 e3]; simpl fst in *; simpl snd in *.
  exists n1, m2, (Z.max 0 (fexp prec emax (Zdigits2 m2 + (E + n1)) - (E + n1))).
  rewrite <- He1. repeat split; try apply Hm2.
  rewrite Hm3, He3. reflexivity.
Qed.

(** A well-formed finite double has at most 53 digits of mantissa. *)
Lemma valid_mantissa (s : bool) (m : positive) (e : Z) :
  valid (S754_finite s m e) = true -> Zpos m < 2 ^ 53.
Proof.
  unfold valid, valid_binary, bounded, canonical_mantissa, fexp, SpecFloat.emin, prec, emax.
  intros Hv. apply andb_true_iff in Hv. destruct Hv as [Hc _].
  apply Z.eqb_eq in Hc.
  pose proof (digits2_bounds m) as [_ Hup].
  apply Z.lt_le_trans with (1 := Hup).
  apply Z.pow_le_mono_r; lia.
Qed.

End DoubleFacts.

Module DurationFacts.

Import Double DoubleFacts.

Lemma of_Z_163 : of_Z 163 = S754_finite false 5735052650479616 (-45).
Proof. reflexivity. Qed.

Lemma of_Z_1000 : of_Z 1000 = S754_finite false 8796093022208000 (-43).
Proof. reflexivity. Qed.

(** A positive finite double that is not above 163, as a bound on its
    mantissa: [m * 2^e <= 163], with [e <= -45]. *)
Lemma not_above_163 (m : positive) (e : Z) :
  valid (S754_finite false m e) = true ->
  gtb (S754_finite false m e) (of_Z 163) = false ->
  e <= -45 /\ Zpos m <= 163 * 2 ^ 45 * 2 ^ (- e - 45).
Proof.
  intros Hv Hgt. pose proof (valid_mantissa _ _ _ Hv) as Hm.
  unfold gtb in Hgt. rewrite of_Z_163 in Hgt.
  unfold SFltb, SFcompare in Hgt.
  destruct (Z.compare_spec (-45) e) as [He|He|He]; try discriminate.
  - subst e. split; [lia|]. simpl (- -45 - 45). rewrite Z.pow_0_r.
    change (Pos.compare_cont Eq 5735052650479616 m) with
      (Pos.compare 5735052650479616 m) in Hgt.
    change (163 * 2 ^ 45 * 1) with (Zpos 5735052650479616).
    destruct (Pos.compare_spec 5735052650479616 m) as [Hc|Hc|Hc].
    + subst m. apply Z.le_refl.
    + discriminate Hgt.
    + apply Z.lt_le_incl. exact (Pos2Z.pos_lt_pos _ _ Hc).
  - split; [lia|].
    assert (H2 : 2 ^ 1 <= 2 ^ (- e - 45)) by (apply Z.pow_le_mono_r; lia).
    change (2 ^ 1) with 2 in H2.
    assert (H53 : 2 ^ 53 = 128 * 2 ^ 45 * 2) by reflexivity.
    assert (H45 : 0 < 2 ^ 45) by reflexivity.
    nia.
Qed.

(** The product with 1000 of a duration up to 163 converts to an [int],
    and that [int] is at most 163000. *)
Lemma finite_times_1000 (m : positive) (e : Z) :
  valid (S754_finite false m e) = true ->
  gtb (S754_finite false m e) (of_Z 163) = false ->
  exists n, to_int (mul (S754_finite false m e) (of_Z 1000)) = Some n /\
            0 <= n <= 163000.
Proof.
  intros Hv Hgt.
  destruct (not_above_163 m e Hv Hgt) as [He Hm].
  rewrite of_Z_1000. unfold mul, SFmul. simpl xorb.
  set (M := Zpos (m * 8796093022208000)).
  set (E := e + -43).
  assert (HMpos : 0 < M) by (unfold M; lia).
  set (U := 2 ^ (- E)).
  assert (HU : U = 2 ^ 88 * 2 ^ (- e - 45)).
  { unfold U, E. rewrite <- Z.pow_add_r by lia. f_equal. lia. }
  assert (HUpos : 0 < U) by (unfold U, E; pow2).
  assert (HM : M <= 163000 * U).
  { unfold M. rewrite Pos2Z.inj_mul, HU.
    change (Zpos 8796093022208000) with (1000 * 2 ^ 43).
    assert (Hq : 0 < 2 ^ (- e - 45)) by pow2.
    replace (163000 * (2 ^ 88 * 2 ^ (- e - 45)))
      with ((163 * 2 ^ 45 * 2 ^ (- e - 45)) * (1000 * 2 ^ 43)) by reflexivity || ring.
    apply Z.mul_le_mono_nonneg_r; [reflexivity || lia | exact Hm]. }
  assert (H18 : 2 ^ (18 - E) = 262144 * U).
  { unfold U. replace (18 - E) with (18 + - E) by lia.
    rewrite Z.pow_add_r by (unfold E; lia). reflexivity. }
  destruct (binary_round_aux_exact false M E HMpos)
    as (n1 & m2 & n2 & Hn1 & Hm2 & Hn2 & Hres).
  rewrite Hres. clear Hres.
  (* the first shift stops 35 binary places below the unit *)
  assert (Hd1 : Zdigits2 M + E <= 18).
  { unfold M at 1. simpl Zdigits2.
    pose proof (digits2_bounds (m * 8796093022208000)) as [Hlo _].
    fold M in Hlo.
    assert (Hlt : 2 ^ (Zpos (digits2_pos (m * 8796093022208000)) - 1) < 2 ^ (18 - E)).
    { rewrite H18. lia. }
    apply Z.pow_lt_mono_r_iff in Hlt; lia. }
  assert (Hn1b : 0 <= n1 <= - E - 35).
  { subst n1. unfold fexp, SpecFloat.emin, prec, emax. unfold E in *. lia. }
  set (P1 := 2 ^ n1) in *.
  assert (HP1 : 0 < P1) by (unfold P1; pow2).
  assert (HP1U : P1 * 2 ^ 35 <= U).
  { unfold P1, U. rewrite <- Z.pow_add_r by lia. apply Z.pow_le_mono_r; lia. }
  assert (Hm2P : 0 <= m2 /\ m2 * P1 <= M + P1).
  { pose proof (Z.mul_div_le M P1 HP1).
    assert (0 <= M / P1) by (apply Z.div_pos; lia). nia. }
  destruct Hm2P as [Hm2nn Hm2P].
  assert (Hd2 : Zdigits2 m2 + (E + n1) <= 18).
  { destruct m2 as [|p2|p2]; simpl Zdigits2; [lia| |lia].
    pose proof (digits2_bounds p2) as [Hlo _].
    assert (Hlt : 2 ^ (Zpos (digits2_pos p2) - 1 + n1) < 2 ^ (18 - E)).
    { rewrite Z.pow_add_r by lia. fold P1. rewrite H18.
      change (2 ^ 35) with 34359738368 in HP1U. nia. }
    apply Z.pow_lt_mono_r_iff in Hlt; lia. }
  assert (Hn2b : 0 <= n2 /\ E + n1 + n2 <= -35).
  { subst n2. unfold fexp, SpecFloat.emin, prec, emax. lia. }
  destruct Hn2b as [Hn2nn He3].
  set (P2 := 2 ^ n2) in *.
  assert (HP2 : 0 < P2) by (unfold P2; pow2).
  set (e3 := E + n1 + n2) in *.
  set (Q := 2 ^ (- e3)).
  assert (HQ : 0 < Q) by (unfold Q; pow2).
  assert (HUQ : U = Q * P1 * P2).
  { unfold U, Q, P1, P2. rewrite <- !Z.pow_add_r by lia. f_equal. unfold e3. lia. }
  assert (Hm3 : 0 <= m2 / P2 /\ (m2 / P2) * P2 <= m2).
  { split; [apply Z.div_pos; lia|]. rewrite Z.mul_comm. apply Z.mul_div_le; lia. }
  destruct Hm3 as [Hm3nn Hm3].
  destruct (m2 / P2) as [|m3|m3] eqn:Hq; [|clear Hm3nn|lia].
  - exists 0. split; [reflexivity|lia].
  - replace (e3 <=? emax - prec) with true
      by (symmetry; apply Z.leb_le; unfold emax, prec; lia).
    unfold to_int, truncate.
    replace (0 <=? e3) with false by (symmetry; apply Z.leb_gt; lia).
    fold Q.
    assert (Ht : 0 <= Zpos m3 / Q <= 163000).
    { split; [apply Z.div_pos; lia|].
      apply Z.lt_succ_r. apply Z.div_lt_upper_bound; [lia|].
      change (Z.succ 163000) with 163001.
      change (2 ^ 35) with 34359738368 in HP1U.
      assert (Hscale : Zpos m3 * (P1 * P2) < (Q * 163001) * (P1 * P2)).
      { replace (Q * 163001 * (P1 * P2)) with (163001 * U) by (rewrite HUQ; ring).
        nia. }
      apply Z.mul_lt_mono_pos_r in Hscale; [exact Hscale|nia]. }
    exists (Zpos m3 / Q). split; [|exact Ht].
    unfold INT_MIN, INT_MAX.
    replace ((- 2 ^ 31 <=? Zpos m3 / Q) && (Zpos m3 / Q <=? 2 ^ 31 - 1)) with true;
      [reflexivity|].
    symmetry. apply andb_true_iff. split; apply Z.leb_le;
      [change (- 2 ^ 31) with (-2147483648)|change (2 ^ 31 - 1) with 2147483647]; lia.
Qed.

(** Every duration has a nanosecond count, between 0 and 163000. *)
Lemma iTime_ns_of_duration (d : double) :
  is_duration d ->
  exists n, iTime_ns_of d = Some n /\ 0 <= n <= 163000.
Proof.
  intros [Hv Hnn]. unfold iTime_ns_of, clamped.
  destruct (gtb d (of_Z 163)) eqn:Hgt.
  - exists 163000. split; [reflexivity|lia].
  - destruct d as [s|s| |s m e].
    + exists 0. split; [reflexivity|lia].
    + destruct s; discriminate.
    + discriminate.
    + destruct s; [discriminate|].
      apply finite_times_1000; assumption.
Qed.

End DurationFacts.

(* ===================================================================== *)
(** ** The conversion to [int] and the comparison with 4.5, exactly *)
(* ===================================================================== *)

Module ValueFacts.

Import Double DoubleFacts.

Lemma to_int_truncate (x : double) (z : Z) :
  to_int x = Some z -> truncate x = Some z.
Proof.
  unfold to_int. destruct (truncate x) as [t|]; [|discriminate].
  destruct ((INT_MIN <=? t) && (t <=? INT_MAX)); congruence.
Qed.

Lemma Some_inj {A : Type} (a b : A) : Some a = Some b -> a = b.
Proof. congruence. Qed.

Lemma Zpos_pow2 (n : Z) : 0 <= n -> Zpos (Z.to_pos (2 ^ n)) = 2 ^ n.
Proof. intros Hn. apply Z2Pos.id. apply pow2_pos; assumption. Qed.

(** [truncate] discards the fractional part: the result is the integer
    next to the exact value on the side of zero. *)
Lemma truncate_toward_zero (x : double) (z : Z) (q : Q) :
  truncate x = Some z -> value x = Some q ->
  ((0 <= q -> inject_Z z <= q /\ q < inject_Z (z + 1)) /\
   (q <= 0 -> inject_Z (z - 1) < q /\ q <= inject_Z z))%Q.
Proof.
  destruct x as [s|s| |s m e]; unfold truncate, value; try discriminate.
  - intros Hz Hq. apply Some_inj in Hz, Hq. subst z q.
    unfold Qle, Qlt, inject_Z; cbn [Qnum Qden]. lia.
  - intros Hz Hq. apply Some_inj in Hz, Hq. subst z q.
    destruct (0 <=? e) eqn:He.
    + apply Z.leb_le in He.
      assert (0 < 2 ^ e) by (apply pow2_pos; lia).
      destruct s; unfold Qle, Qlt, inject_Z; cbn [Qnum Qden];
        change (Zneg m) with (- Zpos m); nia.
    + apply Z.leb_gt in He.
      assert (HP : 0 < 2 ^ (- e)) by (apply pow2_pos; lia).
      pose proof (Z.mul_div_le (Zpos m) (2 ^ (- e)) HP) as Hlo.
      pose proof (Z.mul_succ_div_gt (Zpos m) (2 ^ (- e)) HP) as Hhi.
      assert (0 <= Zpos m / 2 ^ (- e)) by (apply Z.div_pos; lia).
      destruct s; unfold Qle, Qlt, inject_Z; cbn [Qnum Qden];
        rewrite Zpos_pow2 by lia; change (Zneg m) with (- Zpos m); nia.
Qed.

Lemma decimal_4_5 : decimal 45 1 = S754_finite false 5066549580791808 (-50).
Proof. reflexivity. Qed.

(** A well-formed double above the subnormal range has a full mantissa. *)
Lemma valid_normal (s : bool) (m : positive) (e : Z) :
  valid (S754_finite s m e) = true -> -1074 < e -> 2 ^ 52 <= Zpos m.
Proof.
  unfold valid, valid_binary, bounded, canonical_mantissa, fexp, SpecFloat.emin, prec, emax.
  intros Hv He. apply andb_true_iff in Hv. destruct Hv as [Hc _].
  apply Z.eqb_eq in Hc.
  pose proof (digits2_bounds m) as [Hlo _].
  replace (Zpos (digits2_pos m)) with 53 in Hlo by lia. exact Hlo.
Qed.

(** The comparison [t < 4.5] of the source, on a well-formed double, is the
    comparison of the exact value of [t] with 9/2. *)
Lemma ltb_4_5_exact (t : double) (q : Q) :
  valid t = true -> value t = Some q ->
  (ltb t (decimal 45 1) = true <-> (q < 9 # 2)%Q).
Proof.
  rewrite decimal_4_5.
  destruct t as [s|s| |s m e]; unfold value; try discriminate; intros Hv Hq;
    apply Some_inj in Hq; subst q.
  - split; reflexivity.
  - destruct s.
    + split; [intros _|reflexivity].
      destruct (0 <=? e) eqn:He; unfold Qlt, inject_Z; cbn [Qnum Qden].
      * apply Z.leb_le in He. pose proof (pow2_pos e He).
        change (Zneg m) with (- Zpos m). nia.
      * change (Zneg m) with (- Zpos m). lia.
    + pose proof (valid_mantissa _ _ _ Hv) as Hm.
      unfold ltb, SFltb, SFcompare.
      destruct (Z.compare_spec e (-50)) as [He|He|He].
      * subst e. change (0 <=? -50) with false.
        rewrite Pos.compare_cont_spec. unfold Pos.switch_Eq.
        unfold Qlt; cbn [Qnum Qden]. rewrite Zpos_pow2 by lia.
        change (- -50) with 50.
        destruct (Pos.compare_spec m 5066549580791808) as [Hc|Hc|Hc].
        -- subst m. split; [discriminate|]. intros Hlt. vm_compute in Hlt. discriminate.
        -- split; [intros _|reflexivity].
           apply Pos2Z.pos_lt_pos in Hc. change (2 ^ 50) with 1125899906842624. lia.
        -- split; [discriminate|]. intros Hlt.
           apply Pos2Z.pos_lt_pos in Hc. change (2 ^ 50) with 1125899906842624 in Hlt. lia.
      * split; [intros _|reflexivity].
        replace (0 <=? e) with false by (symmetry; apply Z.leb_gt; lia).
        unfold Qlt; cbn [Qnum Qden]. rewrite Zpos_pow2 by lia.
        assert (H51 : 2 ^ 51 <= 2 ^ (- e)) by (apply Z.pow_le_mono_r; lia).
        change (2 ^ 51) with 2251799813685248 in H51.
        change (2 ^ 53) with 9007199254740992 in Hm. lia.
      * split; [discriminate|]. intros Hlt. exfalso.
        pose proof (valid_normal _ _ _ Hv ltac:(lia)) as Hn.
        change (2 ^ 52) with 4503599627370496 in Hn.
        destruct (0 <=? e) eqn:He0.
        -- apply Z.leb_le in He0. pose proof (pow2_pos e He0).
           unfold Qlt, inject_Z in Hlt; cbn [Qnum Qden] in Hlt. nia.
        -- apply Z.leb_gt in He0.
           unfold Qlt in Hlt; cbn [Qnum Qden] in Hlt. rewrite Zpos_pow2 in Hlt by lia.
           assert (H49 : 2 ^ (- e) <= 2 ^ 49) by (apply Z.pow_le_mono_r; lia).
           change (2 ^ 49) with 562949953421312 in H49. lia.
Qed.

End ValueFacts.

(* ===================================================================== *)
(** ** What a run of each procedure yields *)
(* ===================================================================== *)

Section Runs.

Context {Dev : Type} `{ArcDevice Dev}.

Implicit Type this : LeachController Dev.

(** Runs of the monad's own operations. *)
Lemma run_ret {A : Type} (a : A) this :
  runStateT (ret a : Method Dev A) this = Some (a, this).
Proof. reflexivity. Qed.

Lemma run_bind {A B : Type} (m : Method Dev A) (k : A -> Method Dev B) this :
  runStateT (bind m k) this =
    match runStateT m this with
    | Some (a, this') => runStateT (k a) this'
    | None => None
    end.
Proof.
  simpl. destruct (runStateT m this) as [[a this']|]; reflexivity.
Qed.

Lemma run_undefined {A : Type} this :
  runStateT (undefined : Method Dev A) this = None.
Proof. reflexivity. Qed.

Lemma run_print (o : Output) this :
  runStateT (print o) this =
    Some (tt, mkController (ItgSpeed this) (pArcDev this) (sent this)
                           (console this ++ [o])).
Proof. reflexivity. Qed.

Lemma run_set_ItgSpeed (v : Z) this :
  runStateT (set_ItgSpeed v) this =
    Some (tt, mkController v (pArcDev this) (sent this) (console this)).
Proof. reflexivity. Qed.

Lemma run_get this :
  runStateT (get : Method Dev (LeachController Dev)) this = Some (this, this).
Proof. reflexivity. Qed.

Lemma run_cast_int (x : double) this :
  runStateT (cast_int x) this =
    match Double.to_int x with
    | Some z => Some (z, this)
    | None => None
    end.
Proof. unfold cast_int. destruct (Double.to_int x); reflexivity. Qed.

Lemma run_pArcDev_Command (b : BoardId) (w : CommandWord) (a : list Z) this :
  runStateT (pArcDev_Command b w a) this =
    Some (fst (Command (pArcDev this) (mkRequest b w a)),
          mkController (ItgSpeed this)
            (snd (Command (pArcDev this) (mkRequest b w a)))
            (sent this ++ [mkRequest b w a]) (console this)).
Proof.
  unfold pArcDev_Command. rewrite run_bind, run_get.
  destruct (Command (pArcDev this) (mkRequest b w a)); reflexivity.
Qed.

Lemma timing_dsp_unfold (iTime_ns : Z) :
  Int.shl
    (if iTime_ns >? 4000 then Int.or (Int.div iTime_ns 320) 0x80
     else if bigreminder_of iTime_ns <=? littlereminder_of iTime_ns
          then Int.or (Int.div iTime_ns 320) 0x80
          else Int.div iTime_ns 40) 16
  = timing_dsp_of iTime_ns.
Proof.
  unfold timing_dsp_of, timing_byte_of, coarse.
  destruct (iTime_ns >? 4000); [reflexivity|].
  destruct (bigreminder_of iTime_ns <=? littlereminder_of iTime_ns); reflexivity.
Qed.

(** [CalculateTiming] returns the word of its nanosecond count and leaves
    the controller alone, up to the console line of a clamped argument;
    it has no result exactly when the conversion to [int] has none. *)
Lemma run_CalculateTiming (d : double) this :
  runStateT (CalculateTiming d) this =
    match iTime_ns_of d with
    | Some n => Some (timing_dsp_of n, warned d this)
    | None => None
    end.
Proof.
  unfold CalculateTiming, iTime_ns_of, clamped, warned.
  rewrite run_bind.
  destruct (Double.gtb d (Double.of_Z 163)).
  - rewrite run_bind, run_print, run_ret, run_bind, run_cast_int.
    destruct (Double.to_int _) as [n|]; [|reflexivity].
    rewrite run_ret. f_equal. f_equal. apply timing_dsp_unfold.
  - rewrite run_ret, run_bind, run_cast_int.
    destruct (Double.to_int _) as [n|]; [|reflexivity].
    rewrite run_ret. f_equal. f_equal. apply timing_dsp_unfold.
Qed.

(** [ApplyGainAndSpeed] makes one round trip and reports its reply. *)
Lemma run_ApplyGainAndSpeed (gain speed : Z) this :
  let rq := mkRequest TIM_ID SGN [gain; speed] in
  runStateT (ApplyGainAndSpeed gain speed) this =
    Some (outcome (fst (Command (pArcDev this) rq)),
          after_Command rq "Error setting the speed and gain" this).
Proof.
  intros rq. unfold ApplyGainAndSpeed, outcome, after_Command.
  rewrite run_bind, run_pArcDev_Command. fold rq.
  change 0x00444F4E with DON.
  destruct (fst (Command (pArcDev this) rq) =? DON).
  - rewrite run_ret, app_nil_r. reflexivity.
  - rewrite run_bind, run_print, run_ret. reflexivity.
Qed.

End Runs.

Section ProcedureRuns.

Context {Dev : Type} `{ArcDevice Dev}.

Implicit Type this : LeachController Dev.

(** A procedure that sends one timing word: the word is computed, one
    request goes out, and the reply decides the outcome. *)
Lemma run_single_word (w : CommandWord) (what : string) (d : double) this :
  runStateT
    (timing_dsp <- CalculateTiming d ;;
     dReply <- pArcDev_Command TIM_ID w [timing_dsp] ;;
     if dReply =? DON then ret 0
     else print (ErrorReply what dReply) ;; ret (-1)) this =
    match iTime_ns_of d with
    | Some n =>
        Some (outcome (fst (Command (pArcDev (warned d this))
                                    (timing_request w n))),
              after_Command (timing_request w n) what (warned d this))
    | None => None
    end.
Proof.
  rewrite run_bind, run_CalculateTiming.
  destruct (iTime_ns_of d) as [n|]; [|reflexivity].
  rewrite run_bind, run_pArcDev_Command.
  unfold outcome, after_Command, timing_request.
  destruct (fst (Command _ _) =? DON).
  - rewrite run_ret, app_nil_r. reflexivity.
  - rewrite run_bind, run_print, run_ret. reflexivity.
Qed.

(** [ApplyNewIntegralTimeAndGain]: the speed is stored, the gain and
    speed go out, then the integration time goes out, and the reply to
    the latter alone decides the outcome. *)
Lemma run_ApplyNewIntegralTimeAndGain (t : double) (gain : Z) this :
  runStateT (ApplyNewIntegralTimeAndGain t gain) this =
    match iTime_ns_of t with
    | Some n =>
        let this1 := with_ItgSpeed (speed_of t) (warned t this) in
        let this2 :=
          after_Command (mkRequest TIM_ID SGN [gain; speed_of t])
            "Error setting the speed and gain" this1 in
        Some (outcome (fst (Command (pArcDev this2) (timing_request CIT n))),
              after_Command (timing_request CIT n)
                "Error setting the integration time" this2)
    | None => None
    end.
Proof.
  unfold ApplyNewIntegralTimeAndGain.
  rewrite run_bind, run_CalculateTiming.
  destruct (iTime_ns_of t) as [n|]; [|reflexivity].
  rewrite run_bind.
  assert (Hset : runStateT
            (if Double.ltb t (Double.decimal 45 1)
             then set_ItgSpeed 1 else set_ItgSpeed 0) (warned t this)
          = Some (tt, with_ItgSpeed (speed_of t) (warned t this))).
  { unfold speed_of. destruct (Double.ltb t (Double.decimal 45 1));
      apply run_set_ItgSpeed. }
  rewrite Hset. clear Hset.
  rewrite run_bind, run_get, run_bind, run_ApplyGainAndSpeed.
  cbv zeta. rewrite run_bind, run_pArcDev_Command.
  change (ItgSpeed (with_ItgSpeed (speed_of t) (warned t this))) with (speed_of t).
  set (this2 := after_Command (mkRequest TIM_ID SGN _) _ _).
  unfold outcome, after_Command, timing_request.
  change 0x00444F4E with DON.
  destruct (fst (Command _ (mkRequest TIM_ID CIT _)) =? DON).
  - rewrite run_ret, app_nil_r. reflexivity.
  - rewrite run_bind, run_print, run_ret. reflexivity.
Qed.

End ProcedureRuns.

(* ===================================================================== *)
(** ** Products below one *)
(* ===================================================================== *)

Module ProductFacts.

Import Double DoubleFacts.

(** A finite result of [binary_round_aux] has at most 53 digits. *)
Lemma round_mantissa (sx : bool) (M E : Z) (s : bool) (m : positive) (e : Z) :
  0 < M ->
  binary_round_aux prec emax sx M E loc_Exact = S754_finite s m e ->
  s = sx /\ Zpos m < 2 ^ 53.
Proof.
  intros HM Hres.
  destruct (binary_round_aux_exact sx M E HM)
    as (n1 & m2 & n2 & Hn1 & Hm2 & Hn2 & Heq).
  rewrite Heq in Hres. clear Heq.
  assert (Hm2nn : 0 <= m2).
  { assert (0 <= M / 2 ^ n1) by (apply Z.div_pos; [lia|subst n1; pow2]). lia. }
  assert (Hn2nn : 0 <= n2) by lia.
  assert (Hlt : m2 / 2 ^ n2 < 2 ^ 53).
  { destruct m2 as [|p2|p2]; [rewrite Z.div_0_l by pow2; reflexivity| |lia].
    pose proof (digits2_bounds p2) as [_ Hup].
    simpl Zdigits2 in Hn2.
    assert (Hge : Zpos (digits2_pos p2) - 53 <= n2).
    { subst n2. unfold fexp, prec. lia. }
    apply Z.div_lt_upper_bound; [pow2|].
    rewrite <- Z.pow_add_r by lia.
    apply Z.lt_le_trans with (1 := Hup).
    apply Z.pow_le_mono_r; lia. }
  destruct (m2 / 2 ^ n2) as [|p|p]; try discriminate.
  destruct (E + n1 + n2 <=? emax - prec); [|discriminate].
  injection Hres as <- <- <-. split; [reflexivity|exact Hlt].
Qed.

Lemma round_infinity_sign (sx : bool) (M E : Z) (s : bool) :
  0 < M ->
  binary_round_aux prec emax sx M E loc_Exact = S754_infinity s -> s = sx.
Proof.
  intros HM Hres.
  destruct (binary_round_aux_exact sx M E HM)
    as (n1 & m2 & n2 & _ & _ & _ & Heq).
  rewrite Heq in Hres. clear Heq.
  destruct (m2 / 2 ^ n2) as [|p|p]; try discriminate.
  destruct (E + n1 + n2 <=? emax - prec); congruence.
Qed.

Lemma of_Z_1 : of_Z 1 = S754_finite false 4503599627370496 (-52).
Proof. reflexivity. Qed.

(** A product of a duration with 1000 that compares below 1 converts
    to 0. *)
Lemma product_below_1 (d : double) :
  is_duration d ->
  ltb (mul (clamped d) (of_Z 1000)) (of_Z 1) = true ->
  iTime_ns_of d = Some 0.
Proof.
  intros [Hv Hnn]. unfold iTime_ns_of, clamped.
  destruct (gtb d (of_Z 163)); [intros Hlt; vm_compute in Hlt; discriminate|].
  destruct d as [s|s| |s m e]; try (destruct s; discriminate); try discriminate.
  - intros _. reflexivity.
  - destruct s; [discriminate|].
    change (of_Z 1000) with (S754_finite false 8796093022208000 (-43)).
    unfold mul, SFmul. simpl xorb.
    destruct (binary_round_aux prec emax false
                (Zpos (m * 8796093022208000)) (e + -43) loc_Exact)
      as [s3|s3| |s3 m3 e3] eqn:Hres.
    + intros _. reflexivity.
    + apply round_infinity_sign in Hres; [|lia]. subst s3.
      intros Hlt. vm_compute in Hlt. discriminate.
    + intros Hlt. vm_compute in Hlt. discriminate.
    + apply round_mantissa in Hres; [|lia]. destruct Hres as [-> Hm3].
      rewrite of_Z_1. unfold ltb, SFltb, SFcompare.
      rewrite Pos.compare_cont_spec. unfold Pos.switch_Eq.
      intros Hlt.
      assert (He3 : e3 < 0 /\ Zpos m3 < 2 ^ (- e3)).
      { destruct (Z.compare_spec e3 (-52)) as [He|He|He]; try discriminate.
        - subst e3. split; [lia|].
          destruct (Pos.compare_spec m3 4503599627370496) as [Hc|Hc|Hc];
            try discriminate.
          apply Pos2Z.pos_lt_pos in Hc. exact Hc.
        - split; [lia|]. apply Z.lt_le_trans with (1 := Hm3).
          apply Z.pow_le_mono_r; lia. }
      destruct He3 as [Hneg Hsmall].
      unfold to_int, truncate.
      replace (0 <=? e3) with false by (symmetry; apply Z.leb_gt; lia).
      rewrite Z.div_small by lia. reflexivity.
Qed.

End ProductFacts.

(* ===================================================================== *)
(** ** The integer part of [CalculateTiming] *)
(* ===================================================================== *)

Module IntFacts.

Lemma wrap_small (z : Z) : - 2 ^ 31 <= z < 2 ^ 31 -> Int.wrap z = z.
Proof.
  intros Hz. unfold Int.wrap.
  change (2 ^ 31) with 2147483648 in *. change (2 ^ 32) with 4294967296.
  rewrite Z.mod_small; lia.
Qed.

(** A shift by 16 of a value below [2^15] does not overflow. *)
Lemma shl_16_small (x : Z) : 0 <= x < 2 ^ 15 -> Int.shl x 16 = Z.shiftl x 16.
Proof.
  intros Hx. unfold Int.shl. apply wrap_small.
  rewrite Z.shiftl_mul_pow2 by lia.
  change (2 ^ 15) with 32768 in Hx. change (2 ^ 16) with 65536.
  change (2 ^ 31) with 2147483648. lia.
Qed.

Lemma div_nonneg (a b : Z) : 0 <= a -> 0 < b -> Int.div a b = a / b.
Proof. intros Ha Hb. unfold Int.div. apply Z.quot_div_nonneg; assumption. Qed.

Lemma lor_below_pow2 (a b n : Z) :
  0 <= n -> 0 <= a < 2 ^ n -> 0 <= b < 2 ^ n -> 0 <= Z.lor a b < 2 ^ n.
Proof.
  intros Hn Ha Hb. split; [apply Z.lor_nonneg; lia|].
  destruct (Z.eq_dec (Z.lor a b) 0) as [H0|H0].
  - rewrite H0. apply Z.pow_pos_nonneg; lia.
  - assert (Hpos : 0 < Z.lor a b).
    { assert (0 <= Z.lor a b) by (apply Z.lor_nonneg; lia). lia. }
    assert (Hn0 : 0 < n).
    { destruct (Z.eq_dec n 0) as [->|]; [|lia].
      change (2 ^ 0) with 1 in Ha, Hb.
      replace a with 0 in H0 by lia. replace b with 0 in H0 by lia.
      now elim H0. }
    apply Z.log2_lt_pow2; [exact Hpos|].
    rewrite Z.log2_lor by lia.
    apply Z.max_lub_lt.
    + destruct (Z.eq_dec a 0) as [->|Ha0]; [simpl; lia|].
      apply Z.log2_lt_pow2; lia.
    + destruct (Z.eq_dec b 0) as [->|Hb0]; [simpl; lia|].
      apply Z.log2_lt_pow2; lia.
Qed.

(** The low 16 bits of a shifted value are clear. *)
Lemma bits_15_0_shiftl (x : Z) : bits 15 0 (Z.shiftl x 16) = 0.
Proof.
  unfold bits. rewrite Z.shiftr_0_r. change (15 - 0 + 1) with 16.
  rewrite Z.land_ones by lia. rewrite Z.shiftl_mul_pow2 by lia.
  apply Z.mod_mul. discriminate.
Qed.

(** Above 4000 ns the steps of 320 ns are used. *)
Lemma coarse_above_4000 (ns : Z) : 4000 < ns -> coarse ns = true.
Proof.
  intros Hns. unfold coarse.
  replace (ns >? 4000) with true; [reflexivity|].
  symmetry. apply Z.gtb_lt. exact Hns.
Qed.

Lemma timing_byte_coarse (ns : Z) :
  0 <= ns -> coarse ns = true -> timing_byte_of ns = Z.lor (ns / 320) 0x80.
Proof.
  intros Hns Hc. unfold timing_byte_of. rewrite Hc.
  unfold Int.or. rewrite div_nonneg by lia. reflexivity.
Qed.

(** The byte of a count up to 163000 ns stays below [2^9]. *)
Lemma timing_byte_coarse_range (ns : Z) :
  0 <= ns <= 163000 -> 0 <= Z.lor (ns / 320) 0x80 < 2 ^ 9.
Proof.
  intros Hns. apply lor_below_pow2; [lia| |split; [lia|reflexivity]].
  split; [apply Z.div_pos; lia|].
  apply Z.div_lt_upper_bound; [lia|]. change (2 ^ 9) with 512. lia.
Qed.

(** Below 40960 ns the step count is at most 127 and the timing byte is
    a byte. *)
Lemma timing_byte_below_40960 (ns : Z) :
  0 <= ns < 40960 ->
  0 <= (if coarse ns then ns / 320 else ns / 40) <= 127 /\
  0 <= timing_byte_of ns < 2 ^ 8.
Proof.
  intros Hns. unfold timing_byte_of, coarse, Int.or.
  rewrite !div_nonneg by lia.
  assert (H320 : 0 <= ns / 320 <= 127).
  { split; [apply Z.div_pos; lia|].
    apply Z.lt_succ_r. apply Z.div_lt_upper_bound; lia. }
  assert (Hlor : 0 <= Z.lor (ns / 320) 0x80 < 2 ^ 8).
  { apply lor_below_pow2; [lia| |split; [lia|reflexivity]].
    change (2 ^ 8) with 256. lia. }
  destruct (Z.gtb_spec ns 4000) as [Hgt|Hle]; cbn [orb].
  - split; assumption.
  - assert (H40 : 0 <= ns / 40 <= 100).
    { split; [apply Z.div_pos; lia|].
      apply Z.lt_succ_r. apply Z.div_lt_upper_bound; lia. }
    destruct (bigreminder_of ns <=? littlereminder_of ns).
    + split; assumption.
    + change (2 ^ 8) with 256. lia.
Qed.

End IntFacts.

(* ===================================================================== *)
(** ** The timing word *)
(* ===================================================================== *)

Section TimingWords.

Context {Dev : Type}.

Implicit Type this : LeachController Dev.

(** The value [CalculateTiming] returns, by way of its nanosecond count. *)
Lemma eval_CalculateTiming (d : double) this :
  evalStateT (CalculateTiming d) this = option_map timing_dsp_of (iTime_ns_of d).
Proof.
  unfold evalStateT. rewrite run_CalculateTiming.
  destruct (iTime_ns_of d); reflexivity.
Qed.

(** C2, at the arguments where the code leaves the step range: 163 microseconds
    is a duration and is not clamped; its nanosecond count is 163000 and
    its step count is 163000 / 320 = 509, which is above 127: the word is
    0x1FD0000, with bit 24 set, outside the timing byte of bits 23 to 16.
    At 41 microseconds the step count is 128, which falls on the regime
    flag: the word is 0x800000, the word of 0 microseconds, and its step
    field (bits 22 to 16) is 0. *)
Theorem CalculateTiming_step_count_overflow this :
  (is_duration (Double.of_Z 163) /\
   Double.gtb (Double.of_Z 163) (Double.of_Z 163) = false /\
   iTime_ns_of (Double.of_Z 163) = Some 163000 /\
   Int.div 163000 320 = 509 /\
   127 < Int.div 163000 320 /\
   evalStateT (CalculateTiming (Double.of_Z 163)) this = Some 0x1FD0000 /\
   Z.testbit 0x1FD0000 24 = true) /\
  (is_duration (Double.of_Z 41) /\
   iTime_ns_of (Double.of_Z 41) = Some 41000 /\
   Int.div 41000 320 = 128 /\
   evalStateT (CalculateTiming (Double.of_Z 41)) this = Some 0x800000 /\
   bits 22 16 0x800000 = 0 /\
   evalStateT (CalculateTiming (Double.of_Z 0)) this = Some 0x800000).
Proof.
  rewrite !eval_CalculateTiming.
  unfold is_duration. repeat split; vm_compute; reflexivity.
Qed.

(** C3, as amended: [CalculateTiming(4.0)] works on 4000 ns, which is
    not above 4000 and so reaches the comparison of the remainders. The
    remainder of 4000 by 320 is 160 (4000 = 12 * 320 + 160), the remainder
    by 40 is 0, so the steps of 40 ns are chosen: 100 steps, timing byte
    0x64 with bit 23 of the word clear, and the word 0x640000. *)
Theorem CalculateTiming_4us_fine this :
  iTime_ns_of (Double.of_Z 4) = Some 4000 /\
  (4000 >? 4000) = false /\
  bigreminder_of 4000 = 160 /\
  littlereminder_of 4000 = 0 /\
  coarse 4000 = false /\
  timing_byte_of 4000 = 0x64 /\
  evalStateT (CalculateTiming (Double.of_Z 4)) this = Some 0x640000 /\
  Z.testbit 0x640000 23 = false.
Proof.
  rewrite eval_CalculateTiming.
  repeat split; vm_compute; reflexivity.
Qed.

(** C4: a duration whose nanosecond count [ns] is above 4000 is counted
    in steps of 320 ns: the value the source calls the timing byte is
    [ns / 320 | 0x80] and the word is that value shifted left by 16, so
    that its low 16 bits are clear. The bits of the word above bit 23
    are [ns / 81920]: they are clear while [ns] is below 81920 and not
    clear from there on, where the value is no byte. At 10 microseconds
    the word is as the format has it: 31 steps, byte 0x9F, word
    0x9F0000. At 82 microseconds, a duration that is not clamped, the
    step count is 256, the value is 0x180 and the word is 0x1800000,
    with bit 24 set and the step field of bits 22 to 16 at 0; at 163
    microseconds the word is 0x1FD0000. *)
Theorem CalculateTiming_coarse_above_4000 this :
  (forall (d : double) (ns : Z),
     is_duration d -> iTime_ns_of d = Some ns -> 4000 < ns ->
     coarse ns = true /\
     timing_byte_of ns = Z.lor (ns / 320) 0x80 /\
     evalStateT (CalculateTiming d) this
       = Some (Z.shiftl (Z.lor (ns / 320) 0x80) 16) /\
     bits 15 0 (Z.shiftl (Z.lor (ns / 320) 0x80) 16) = 0 /\
     Z.shiftr (Z.shiftl (Z.lor (ns / 320) 0x80) 16) 24 = ns / 81920 /\
     (ns < 81920 -> Z.shiftr (Z.shiftl (Z.lor (ns / 320) 0x80) 16) 24 = 0) /\
     (81920 <= ns -> 0 < Z.shiftr (Z.shiftl (Z.lor (ns / 320) 0x80) 16) 24)) /\
  (iTime_ns_of (Double.of_Z 10) = Some 10000 /\
   10000 / 320 = 31 /\
   timing_byte_of 10000 = 0x9F /\
   evalStateT (CalculateTiming (Double.of_Z 10)) this = Some 0x9F0000) /\
  (is_duration (Double.of_Z 82) /\
   Double.gtb (Double.of_Z 82) (Double.of_Z 163) = false /\
   iTime_ns_of (Double.of_Z 82) = Some 82000 /\
   82000 / 320 = 256 /\
   timing_byte_of 82000 = 0x180 /\
   evalStateT (CalculateTiming (Double.of_Z 82)) this = Some 0x1800000 /\
   Z.testbit 0x1800000 24 = true /\
   bits 22 16 0x1800000 = 0) /\
  (is_duration (Double.of_Z 163) /\
   Double.gtb (Double.of_Z 163) (Double.of_Z 163) = false /\
   iTime_ns_of (Double.of_Z 163) = Some 163000 /\
   timing_byte_of 163000 = 0x1FD /\
   evalStateT (CalculateTiming (Double.of_Z 163)) this = Some 0x1FD0000 /\
   Z.shiftr 0x1FD0000 24 = 1).
Proof.
  split; [|rewrite !eval_CalculateTiming;
           repeat split; vm_compute; reflexivity].
  intros d ns Hd Hns Hgt.
  destruct (DurationFacts.iTime_ns_of_duration d Hd) as (n & Hn & Hrange).
  rewrite Hns in Hn. apply ValueFacts.Some_inj in Hn. subst n.
  pose proof (IntFacts.coarse_above_4000 ns Hgt) as Hc.
  pose proof (IntFacts.timing_byte_coarse ns ltac:(lia) Hc) as Hb.
  pose proof (IntFacts.timing_byte_coarse_range ns Hrange) as Hr.
  assert (Habove : Z.shiftr (Z.shiftl (Z.lor (ns / 320) 0x80) 16) 24
                   = ns / 81920).
  { rewrite Z.shiftr_shiftl_r by lia. change (24 - 16) with 8.
    rewrite Z.shiftr_lor. change (Z.shiftr 128 8) with 0.
    rewrite Z.lor_0_r, Z.shiftr_div_pow2 by lia. change (2 ^ 8) with 256.
    Z.div_mod_to_equations. lia. }
  split; [exact Hc|]. split; [exact Hb|]. split.
  { rewrite eval_CalculateTiming, Hns. simpl option_map.
    unfold timing_dsp_of. rewrite Hb. f_equal.
    apply IntFacts.shl_16_small.
    change (2 ^ 9) with 512 in Hr. change (2 ^ 15) with 32768. lia. }
  split; [apply IntFacts.bits_15_0_shiftl|].
  split; [exact Habove|].
  rewrite Habove. split; intros Hns'.
  - apply Z.div_small. lia.
  - apply Z.div_str_pos. lia.
Qed.

(** The product with 1000 is rounded to a double before it is truncated:
    the double nearest to 0.12 lies below 0.12 and its exact product with
    1000 lies below 120, yet the nanosecond count is 120. *)
Remark product_rounded_before_truncation :
  exists q : Q,
    value (Double.decimal 12 2) = Some q /\
    (q * inject_Z 1000 < inject_Z 120)%Q /\
    iTime_ns_of (Double.decimal 12 2) = Some 120.
Proof.
  eexists. split; [reflexivity|]. split; vm_compute; reflexivity.
Qed.

(** C5: [CalculateTiming] converts its argument, clamped, to nanoseconds
    by the product with 1000 (a product of doubles) followed by the
    conversion to [int]; that conversion discards the fraction, giving the
    integer next to the exact value on the side of zero: 3.9999
    microseconds are 3999 ns and yield 0x630000, not the 0x640000 of
    4000 ns. So two durations up to 163 whose products truncate to the
    same integer get the same word, and they do get one. *)
Theorem CalculateTiming_truncates this :
  (forall d : double,
     runStateT (CalculateTiming d) this =
       match Double.to_int (Double.mul (clamped d) (Double.of_Z 1000)) with
       | Some ns => Some (timing_dsp_of ns, warned d this)
       | None => None
       end) /\
  (forall (x : double) (z : Z) (q : Q),
     Double.to_int x = Some z -> value x = Some q ->
     ((0 <= q -> inject_Z z <= q /\ q < inject_Z (z + 1)) /\
      (q <= 0 -> inject_Z (z - 1) < q /\ q <= inject_Z z))%Q) /\
  (iTime_ns_of (Double.decimal 39999 4) = Some 3999 /\
   evalStateT (CalculateTiming (Double.decimal 39999 4)) this = Some 0x630000) /\
  (forall d1 d2 : double,
     is_duration d1 -> is_duration d2 ->
     Double.gtb d1 (Double.of_Z 163) = false ->
     Double.gtb d2 (Double.of_Z 163) = false ->
     Double.truncate (Double.mul d1 (Double.of_Z 1000))
       = Double.truncate (Double.mul d2 (Double.of_Z 1000)) ->
     evalStateT (CalculateTiming d1) this = evalStateT (CalculateTiming d2) this /\
     exists code : Z, evalStateT (CalculateTiming d1) this = Some code).
Proof.
  split; [|split; [|split]].
  - intros d. apply run_CalculateTiming.
  - intros x z q Hz Hq.
    apply (ValueFacts.truncate_toward_zero x z q); [|exact Hq].
    apply ValueFacts.to_int_truncate. exact Hz.
  - rewrite eval_CalculateTiming. split; vm_compute; reflexivity.
  - intros d1 d2 Hd1 Hd2 Hle1 Hle2 Htr.
    destruct (DurationFacts.iTime_ns_of_duration d1 Hd1) as (n1 & Hn1 & _).
    destruct (DurationFacts.iTime_ns_of_duration d2 Hd2) as (n2 & Hn2 & _).
    rewrite !eval_CalculateTiming, Hn1, Hn2.
    unfold iTime_ns_of, clamped in Hn1, Hn2.
    rewrite Hle1 in Hn1. rewrite Hle2 in Hn2.
    apply ValueFacts.to_int_truncate in Hn1, Hn2.
    split; [|exists (timing_dsp_of n1); reflexivity].
    congruence.
Qed.

(** C6: an argument above 163 is replaced by 163: [CalculateTiming]
    writes its two lines to the console and returns the word of 163
    microseconds, whatever the argument was; so 164 and 163 give the
    same word. *)
Theorem CalculateTiming_clamps_above_163 (d : double) this :
  Double.gtb d (Double.of_Z 163) = true ->
  clamped d = Double.of_Z 163 /\
  runStateT (CalculateTiming d) this
    = Some (0x1FD0000,
            mkController (ItgSpeed this) (pArcDev this) (sent this)
                         (console this ++ [OutOfBounds])) /\
  evalStateT (CalculateTiming d) this
    = evalStateT (CalculateTiming (Double.of_Z 163)) this /\
  evalStateT (CalculateTiming (Double.of_Z 164)) this
    = evalStateT (CalculateTiming (Double.of_Z 163)) this.
Proof.
  intros Hgt.
  assert (Hc : clamped d = Double.of_Z 163) by (unfold clamped; rewrite Hgt; reflexivity).
  assert (Hns : iTime_ns_of d = Some 163000).
  { unfold iTime_ns_of. rewrite Hc. reflexivity. }
  split; [exact Hc|split; [|split]].
  - rewrite run_CalculateTiming, Hns. unfold warned. rewrite Hgt. reflexivity.
  - rewrite !eval_CalculateTiming, Hns. reflexivity.
  - rewrite !eval_CalculateTiming. reflexivity.
Qed.

(** C10: when the nanosecond count is 0, both remainders are 0, the
    comparison [0 <= 0] chooses the steps of 320 ns, the step count is 0
    and the word is 0x800000, the regime flag alone. This is so at 0, at
    0.0005 and at 0.000999 microseconds, and for every duration whose
    product with 1000 compares below 1. *)
Theorem CalculateTiming_zero_ns this :
  (forall d : double,
     iTime_ns_of d = Some 0 ->
     bigreminder_of 0 = 0 /\
     littlereminder_of 0 = 0 /\
     coarse 0 = true /\
     Int.div 0 320 = 0 /\
     timing_byte_of 0 = 0x80 /\
     evalStateT (CalculateTiming d) this = Some 0x800000) /\
  (forall d : double,
     is_duration d ->
     Double.ltb (Double.mul (clamped d) (Double.of_Z 1000)) (Double.of_Z 1) = true ->
     iTime_ns_of d = Some 0) /\
  (iTime_ns_of (Double.of_Z 0) = Some 0 /\
   iTime_ns_of (Double.decimal 5 4) = Some 0 /\
   iTime_ns_of (Double.decimal 999 6) = Some 0).
Proof.
  split; [|split].
  - intros d Hns. rewrite eval_CalculateTiming, Hns.
    repeat split.
  - apply ProductFacts.product_below_1.
  - repeat split; vm_compute; reflexivity.
Qed.

End TimingWords.

(* ===================================================================== *)
(** ** The procedures that talk to the timing board *)
(* ===================================================================== *)

Section Replies.

Context {Dev : Type} `{ArcDevice Dev}.

Implicit Type this : LeachController Dev.

Lemma outcome_0 (dReply : Z) : outcome dReply = 0 <-> dReply = DON.
Proof.
  unfold outcome. destruct (Z.eqb_spec dReply DON); split; intros Hx;
    try reflexivity; try assumption; try contradiction; lia.
Qed.

Lemma outcome_m1 (dReply : Z) : outcome dReply = -1 <-> dReply <> DON.
Proof.
  unfold outcome. destruct (Z.eqb_spec dReply DON); split; intros Hx;
    try reflexivity; try assumption; try contradiction; lia.
Qed.

Lemma outcome_cases (dReply : Z) : outcome dReply = 0 \/ outcome dReply = -1.
Proof. unfold outcome. destruct (dReply =? DON); [left|right]; reflexivity. Qed.

Lemma reports_reply_outcome (dev : Dev) (rq : Request) this' :
  reports_reply (Some (outcome (fst (Command dev rq)), this')) dev rq.
Proof.
  exists (outcome (fst (Command dev rq))), this'.
  split; [reflexivity|]. split; [apply outcome_0|apply outcome_m1].
Qed.

(** The console line of [CalculateTiming] touches nothing else. *)
Lemma warned_fields (d : double) this :
  ItgSpeed (warned d this) = ItgSpeed this /\
  pArcDev (warned d this) = pArcDev this /\
  sent (warned d this) = sent this.
Proof. unfold warned. destruct (Double.gtb d (Double.of_Z 163)); repeat split. Qed.

(** The speed is fast exactly when the comparison with 4.5 holds. *)
Lemma speed_of_fast (t : double) :
  speed_of t = 1 <-> Double.ltb t (Double.decimal 45 1) = true.
Proof.
  unfold speed_of. destruct (Double.ltb t (Double.decimal 45 1));
    split; intros; try reflexivity; discriminate.
Qed.

Lemma speed_of_slow (t : double) :
  speed_of t = 0 <-> Double.ltb t (Double.decimal 45 1) = false.
Proof.
  unfold speed_of. destruct (Double.ltb t (Double.decimal 45 1));
    split; intros; try reflexivity; discriminate.
Qed.

(** C7: after [ApplyNewIntegralTimeAndGain(t, gain)], for a duration [t],
    the stored speed is 1 (fast) or 0 (slow); it is 1 exactly when the
    comparison [t < 4.5] of doubles holds, which for a finite [t] is the
    comparison of its exact value with 9/2. The nearest doubles to 4.4
    and to 4.5 select fast and slow: the boundary itself is slow. *)
Theorem ItgSpeed_fast_iff_below_4_5 :
  (forall (t : double) (gain : Z) this,
     is_duration t ->
     exists (r : Z) (this' : LeachController Dev),
       runStateT (ApplyNewIntegralTimeAndGain t gain) this = Some (r, this') /\
       (ItgSpeed this' = 1 \/ ItgSpeed this' = 0) /\
       (ItgSpeed this' = 1 <-> Double.ltb t (Double.decimal 45 1) = true) /\
       (ItgSpeed this' = 0 <-> Double.ltb t (Double.decimal 45 1) = false) /\
       (forall q : Q, value t = Some q ->
          (ItgSpeed this' = 1 <-> (q < 9 # 2)%Q))) /\
  (speed_of (Double.decimal 44 1) = 1 /\
   speed_of (Double.decimal 45 1) = 0 /\
   option_map Qred (value (Double.decimal 45 1)) = Some (9 # 2)).
Proof.
  split; [|repeat split; vm_compute; reflexivity].
  intros t gain this Hd.
  destruct (DurationFacts.iTime_ns_of_duration t Hd) as (n & Hn & _).
  rewrite run_ApplyNewIntegralTimeAndGain, Hn. cbv zeta.
  eexists. eexists. split; [reflexivity|].
  change (ItgSpeed (after_Command _ _ (after_Command _ _
            (with_ItgSpeed (speed_of t) (warned t this))))) with (speed_of t).
  split; [|split; [|split]].
  - unfold speed_of. destruct (Double.ltb t (Double.decimal 45 1)); [left|right]; reflexivity.
  - apply speed_of_fast.
  - apply speed_of_slow.
  - intros q Hq. rewrite speed_of_fast.
    apply ValueFacts.ltb_4_5_exact; [apply Hd|exact Hq].
Qed.

(** Where a run of [ApplyNewIntegralTimeAndGain] ends: the value it
    returns and the controller it leaves, in terms of what the device
    does with the two requests. *)
Lemma ApplyNewIntegralTimeAndGain_final (t : double) (gain : Z) this :
  runStateT (ApplyNewIntegralTimeAndGain t gain) this =
    match iTime_ns_of t with
    | Some n =>
        let rq1 := mkRequest TIM_ID SGN [gain; speed_of t] in
        let rq2 := mkRequest TIM_ID CIT [timing_dsp_of n] in
        let dReply1 := fst (Command (pArcDev this) rq1) in
        let dev1 := snd (Command (pArcDev this) rq1) in
        let dReply2 := fst (Command dev1 rq2) in
        Some
          (if dReply2 =? DON then 0 else -1,
           mkController (speed_of t) (snd (Command dev1 rq2))
             (sent this ++ [rq1; rq2])
             (console this
              ++ (if Double.gtb t (Double.of_Z 163) then [OutOfBounds] else [])
              ++ (if dReply1 =? DON then []
                  else [ErrorReply "Error setting the speed and gain" dReply1])
              ++ (if dReply2 =? DON then []
                  else [ErrorReply "Error setting the integration time" dReply2])))
    | None => None
    end.
Proof.
  rewrite run_ApplyNewIntegralTimeAndGain.
  destruct (iTime_ns_of t) as [n|]; [|reflexivity]. cbv zeta.
  unfold outcome, after_Command, with_ItgSpeed, timing_request, warned.
  destruct (Double.gtb t (Double.of_Z 163));
    cbn [pArcDev ItgSpeed sent console];
    rewrite <- ?app_assoc; reflexivity.
Qed.

(** C9: [ApplyNewIntegralTimeAndGain(t, gain)] returns for every duration
    [t]. Whenever it returns, with 0 or with -1, it leaves
    [CCDParams.ItgSpeed] at 1 when [t < 4.5] and at 0 otherwise, and the
    device has been handed two requests: first [SGN] with the gain and
    that speed, then, in the state in which [SGN] left it, [CIT] with
    the timing word. The device is left as [CIT] left it, the value
    returned is read off the reply to [CIT], and the console has the
    line of an argument above 163, the line of a reply to [SGN] other
    than [DON] and the line of a reply to [CIT] other than [DON], in this
    order and nothing else. *)
Theorem ApplyNewIntegralTimeAndGain_speed_then_time (t : double) (gain : Z) this :
  (is_duration t ->
   exists (r : Z) (this' : LeachController Dev),
     runStateT (ApplyNewIntegralTimeAndGain t gain) this = Some (r, this')) /\
  (forall (r : Z) (this' : LeachController Dev),
     runStateT (ApplyNewIntegralTimeAndGain t gain) this = Some (r, this') ->
     (r = 0 \/ r = -1) /\
     ItgSpeed this' = (if Double.ltb t (Double.decimal 45 1) then 1 else 0) /\
     exists n : Z,
       iTime_ns_of t = Some n /\
       let rq1 := mkRequest TIM_ID SGN [gain; ItgSpeed this'] in
       let rq2 := mkRequest TIM_ID CIT [timing_dsp_of n] in
       let dReply1 := fst (Command (pArcDev this) rq1) in
       let dev1 := snd (Command (pArcDev this) rq1) in
       let dReply2 := fst (Command dev1 rq2) in
       sent this' = sent this ++ [rq1; rq2] /\
       pArcDev this' = snd (Command dev1 rq2) /\
       r = (if dReply2 =? DON then 0 else -1) /\
       console this' =
         console this
         ++ (if Double.gtb t (Double.of_Z 163) then [OutOfBounds] else [])
         ++ (if dReply1 =? DON then []
             else [ErrorReply "Error setting the speed and gain" dReply1])
         ++ (if dReply2 =? DON then []
             else [ErrorReply "Error setting the integration time" dReply2])).
Proof.
  rewrite ApplyNewIntegralTimeAndGain_final. split.
  - intros Hd.
    destruct (DurationFacts.iTime_ns_of_duration t Hd) as (n & Hn & _).
    rewrite Hn. cbv zeta. eexists. eexists. reflexivity.
  - intros r this' Hrun.
    destruct (iTime_ns_of t) as [n|]; [|discriminate]. cbv zeta in Hrun.
    apply ValueFacts.Some_inj in Hrun.
    assert (Hr : r = fst (r, this')) by reflexivity.
    assert (Hthis : this' = snd (r, this')) by reflexivity.
    rewrite <- Hrun in Hr, Hthis. cbn [fst snd] in Hr, Hthis.
    clear Hrun. subst r this'. cbn [ItgSpeed pArcDev sent console].
    split; [destruct (_ =? DON); [left|right]; reflexivity|].
    split; [reflexivity|].
    exists n. split; [reflexivity|]. cbv zeta.
    split; [reflexivity|]. split; [reflexivity|]. split; reflexivity.
Qed.

End Replies.

(** C1, at the run where the failure is lost: with a device that
    answers 0xDEAD to the first request and [DON] afterwards,
    [ApplyNewIntegralTimeAndGain(10.0, 5)] writes the error of the gain
    and speed to the console, goes on to send the integration time, and
    returns 0: two requests, and success. On every device and for every
    argument a run that ends has sent both requests, and its outcome is
    read off the reply to the second alone. *)
Theorem ApplyNewIntegralTimeAndGain_drops_gain_failure :
  runStateT (ApplyNewIntegralTimeAndGain (Double.of_Z 10) 5) (fresh [0xDEAD]) =
    Some (0,
          mkController 0 []
            [mkRequest TIM_ID SGN [5; 0]; mkRequest TIM_ID CIT [0x9F0000]]
            [ErrorReply "Error setting the speed and gain" 0xDEAD]) /\
  (forall (Dev : Type) (Device : ArcDevice Dev)
          (t : double) (gain : Z) (this : LeachController Dev),
     match runStateT (ApplyNewIntegralTimeAndGain t gain) this with
     | Some (r, this') =>
         exists n : Z,
           iTime_ns_of t = Some n /\
           sent this' = sent this ++
             [mkRequest TIM_ID SGN [gain; speed_of t]; timing_request CIT n] /\
           r = outcome (fst (Command
                 (snd (Command (pArcDev this)
                         (mkRequest TIM_ID SGN [gain; speed_of t])))
                 (timing_request CIT n)))
     | None => iTime_ns_of t = None
     end).
Proof.
  split; [vm_compute; reflexivity|].
  intros Dev Device t gain this.
  rewrite run_ApplyNewIntegralTimeAndGain.
  destruct (iTime_ns_of t) as [n|]; [|reflexivity]. cbv zeta.
  destruct (warned_fields t this) as (_ & Hdev & Hsent).
  exists n. split; [reflexivity|]. split.
  - unfold after_Command, with_ItgSpeed; cbn [sent].
    rewrite Hsent, <- app_assoc. reflexivity.
  - unfold after_Command, with_ItgSpeed; cbn [pArcDev].
    rewrite Hdev. reflexivity.
Qed.

(** C8: for a duration, each of the six procedures of one request
    returns, and returns 0 exactly when the device answers [DON]
    (0x00444F4E) to its request, and -1 otherwise. [ApplyGainAndSpeed]
    does so too, for its [SGN] request. [ApplyNewIntegralTimeAndGain]
    does not: it sends two requests, [SGN] and then [CIT], and returns 0
    exactly when the reply to [CIT] is [DON]; a reply to [SGN] other than
    [DON] is written to the console and is not part of the value
    returned. With a device that answers 0xDEAD to [SGN] and [DON] to
    [CIT], [ApplyNewIntegralTimeAndGain(10.0, 5)] returns 0. *)
Theorem applicators_report_reply :
  DON = 0x00444F4E /\
  (forall (Dev : Type) (Device : ArcDevice Dev)
          (d : double) (this : LeachController Dev),
     is_duration d ->
     exists n : Z,
       iTime_ns_of d = Some n /\
       reports_reply (runStateT (ApplyNewPedestalIntegralWait d) this)
         (pArcDev this) (timing_request CPR n) /\
       reports_reply (runStateT (ApplyNewSignalIntegralWait d) this)
         (pArcDev this) (timing_request CPO n) /\
       reports_reply (runStateT (ApplyDGWidth d) this)
         (pArcDev this) (timing_request DGW n) /\
       reports_reply (runStateT (ApplyOGWidth d) this)
         (pArcDev this) (timing_request OGW n) /\
       reports_reply (runStateT (ApplySkippingRGWidth d) this)
         (pArcDev this) (timing_request RSW n) /\
       reports_reply (runStateT (ApplySummingWellWidth d) this)
         (pArcDev this) (timing_request SWW n)) /\
  (forall (Dev : Type) (Device : ArcDevice Dev)
          (gain speed : Z) (this : LeachController Dev),
     let rq := mkRequest TIM_ID SGN [gain; speed] in
     let dReply := fst (Command (pArcDev this) rq) in
     runStateT (ApplyGainAndSpeed gain speed) this =
       Some (if dReply =? DON then 0 else -1,
             mkController (ItgSpeed this) (snd (Command (pArcDev this) rq))
               (sent this ++ [rq])
               (console this
                ++ (if dReply =? DON then []
                    else [ErrorReply "Error setting the speed and gain" dReply]))) /\
     reports_reply (runStateT (ApplyGainAndSpeed gain speed) this)
       (pArcDev this) rq) /\
  (forall (Dev : Type) (Device : ArcDevice Dev)
          (d : double) (gain : Z) (this : LeachController Dev),
     is_duration d ->
     exists (n r : Z) (this' : LeachController Dev),
       iTime_ns_of d = Some n /\
       runStateT (ApplyNewIntegralTimeAndGain d gain) this = Some (r, this') /\
       let rq1 := mkRequest TIM_ID SGN [gain; speed_of d] in
       let rq2 := mkRequest TIM_ID CIT [timing_dsp_of n] in
       let dReply1 := fst (Command (pArcDev this) rq1) in
       let dev1 := snd (Command (pArcDev this) rq1) in
       let dReply2 := fst (Command dev1 rq2) in
       (r = 0 <-> dReply2 = DON) /\
       (r = -1 <-> dReply2 <> DON) /\
       sent this' = sent this ++ [rq1; rq2] /\
       pArcDev this' = snd (Command dev1 rq2) /\
       (dReply1 <> DON ->
        In (ErrorReply "Error setting the speed and gain" dReply1)
           (console this')) /\
       (dReply1 <> DON -> dReply2 = DON -> r = 0)) /\
  (is_duration (Double.of_Z 10) /\
   fst (Command [0xDEAD] (mkRequest TIM_ID SGN [5; 0])) = 0xDEAD /\
   fst (Command [] (mkRequest TIM_ID CIT [0x9F0000])) = DON /\
   runStateT (ApplyGainAndSpeed 5 0) (fresh [0xDEAD]) =
     Some (-1,
           mkController 0 [] [mkRequest TIM_ID SGN [5; 0]]
             [ErrorReply "Error setting the speed and gain" 0xDEAD]) /\
   runStateT (ApplyNewIntegralTimeAndGain (Double.of_Z 10) 5) (fresh [0xDEAD]) =
     Some (0,
           mkController 0 []
             [mkRequest TIM_ID SGN [5; 0]; mkRequest TIM_ID CIT [0x9F0000]]
             [ErrorReply "Error setting the speed and gain" 0xDEAD])).
Proof.
  split; [reflexivity|]. split; [|split; [|split]].
  - intros Dev Device d this Hd.
    destruct (DurationFacts.iTime_ns_of_duration d Hd) as (n & Hn & _).
    exists n. split; [exact Hn|].
    destruct (warned_fields d this) as (_ & Hdev & _).
    unfold ApplyNewPedestalIntegralWait, ApplyNewSignalIntegralWait, ApplyDGWidth,
      ApplyOGWidth, ApplySkippingRGWidth, ApplySummingWellWidth.
    rewrite !run_single_word, Hn, Hdev.
    repeat (split; [apply reports_reply_outcome|]).
    apply reports_reply_outcome.
  - intros Dev Device gain speed this. cbv zeta.
    rewrite run_ApplyGainAndSpeed. cbv zeta.
    split; [reflexivity|]. apply reports_reply_outcome.
  - intros Dev Device d gain this Hd.
    destruct (DurationFacts.iTime_ns_of_duration d Hd) as (n & Hn & _).
    rewrite ApplyNewIntegralTimeAndGain_final, Hn. cbv zeta.
    exists n. eexists. eexists.
    split; [reflexivity|]. split; [reflexivity|].
    cbn [sent pArcDev console].
    split; [apply outcome_0|]. split; [apply outcome_m1|].
    split; [reflexivity|]. split; [reflexivity|]. split.
    + intros Hne. apply in_or_app. right. apply in_or_app. right.
      apply in_or_app. left.
      destruct (Z.eqb_spec
                  (fst (Command (pArcDev this)
                          (mkRequest TIM_ID SGN [gain; speed_of d]))) DON)
        as [Heq|_]; [contradiction|]. left. reflexivity.
    + intros _ Hdon. apply outcome_0. exact Hdon.
  - split; [split; reflexivity|].
    split; [reflexivity|]. split; [reflexivity|].
    split; vm_compute; reflexivity.
Qed.

(* ===================================================================== *)
(** ** The statements above at particular arguments *)
(* ===================================================================== *)

(** C3, as first stated, does not hold: on a controller whose device answers [DON],
    [CalculateTiming(4.0)] does not return 0x8C0000, the word of 12 steps
    of 320 ns. *)
Lemma CalculateTiming_4us_not_coarse :
  evalStateT (CalculateTiming (Double.of_Z 4)) (fresh []) <> Some 0x8C0000.
Proof.
  rewrite eval_CalculateTiming. vm_compute. discriminate.
Qed.

(** C4 at 10 microseconds. *)
Lemma CalculateTiming_coarse_above_4000_at_10 :
  is_duration (Double.of_Z 10) /\
  iTime_ns_of (Double.of_Z 10) = Some 10000 /\
  4000 < 10000 /\
  evalStateT (CalculateTiming (Double.of_Z 10)) (fresh [])
    = Some (Z.shiftl (Z.lor (10000 / 320) 0x80) 16).
Proof.
  assert (Hd : is_duration (Double.of_Z 10)) by (split; reflexivity).
  assert (Hns : iTime_ns_of (Double.of_Z 10) = Some 10000) by reflexivity.
  assert (Hgt : 4000 < 10000) by reflexivity.
  split; [exact Hd|]. split; [exact Hns|]. split; [exact Hgt|].
  apply (proj1 (CalculateTiming_coarse_above_4000 (fresh []))
           (Double.of_Z 10) 10000 Hd Hns Hgt).
Defined.

(** C5 at 1.5 and 1.5001 microseconds, both of 1500 ns. *)
Lemma CalculateTiming_truncates_at_1500ns :
  is_duration (Double.decimal 15 1) /\
  is_duration (Double.decimal 15001 4) /\
  Double.truncate (Double.mul (Double.decimal 15 1) (Double.of_Z 1000)) = Some 1500 /\
  Double.truncate (Double.mul (Double.decimal 15001 4) (Double.of_Z 1000)) = Some 1500 /\
  evalStateT (CalculateTiming (Double.decimal 15 1)) (fresh [])
    = evalStateT (CalculateTiming (Double.decimal 15001 4)) (fresh []).
Proof.
  assert (Hd1 : is_duration (Double.decimal 15 1)) by (split; reflexivity).
  assert (Hd2 : is_duration (Double.decimal 15001 4)) by (split; reflexivity).
  split; [exact Hd1|]. split; [exact Hd2|].
  split; [reflexivity|]. split; [reflexivity|].
  apply (proj2 (proj2 (proj2 (CalculateTiming_truncates (fresh []))))
           (Double.decimal 15 1) (Double.decimal 15001 4) Hd1 Hd2);
    reflexivity.
Defined.

(** C6 at 164 microseconds. *)
Lemma CalculateTiming_clamps_164 :
  Double.gtb (Double.of_Z 164) (Double.of_Z 163) = true /\
  runStateT (CalculateTiming (Double.of_Z 164)) (fresh [])
    = Some (0x1FD0000, mkController 0 [] [] [OutOfBounds]).
Proof.
  split; [reflexivity|].
  apply (CalculateTiming_clamps_above_163 (Double.of_Z 164) (fresh [])).
  reflexivity.
Defined.

(** C7 at 4.4 microseconds. *)
Lemma ItgSpeed_fast_at_4_4 :
  is_duration (Double.decimal 44 1) /\
  exists (r : Z) (this' : LeachController (list Z)),
    runStateT (ApplyNewIntegralTimeAndGain (Double.decimal 44 1) 5) (fresh [])
      = Some (r, this') /\
    ItgSpeed this' = 1.
Proof.
  assert (Hd : is_duration (Double.decimal 44 1)) by (split; reflexivity).
  split; [exact Hd|].
  destruct (proj1 ItgSpeed_fast_iff_below_4_5 (Double.decimal 44 1) 5 (fresh []) Hd)
    as (r & this' & Hrun & _ & Hfast & _).
  exists r, this'. split; [exact Hrun|].
  apply Hfast. reflexivity.
Defined.

(** C8 at 10 microseconds, with a device that answers 0xDEAD first. *)
Lemma applicators_report_reply_at_10 :
  is_duration (Double.of_Z 10) /\
  reports_reply
    (runStateT (ApplySummingWellWidth (Double.of_Z 10)) (fresh [0xDEAD]))
    [0xDEAD] (timing_request SWW 10000) /\
  exists this' : LeachController (list Z),
    runStateT (ApplyNewIntegralTimeAndGain (Double.of_Z 10) 5) (fresh [0xDEAD])
      = Some (0, this') /\
    In (ErrorReply "Error setting the speed and gain" 0xDEAD) (console this').
Proof.
  assert (Hd : is_duration (Double.of_Z 10)) by (split; reflexivity).
  split; [exact Hd|].
  destruct applicators_report_reply as (_ & Hsix & _ & Hseventh & _).
  assert (Hn' : iTime_ns_of (Double.of_Z 10) = Some 10000) by reflexivity.
  split.
  - destruct (Hsix (list Z) ScriptedDevice (Double.of_Z 10) (fresh [0xDEAD]) Hd)
      as (n & Hn & _ & _ & _ & _ & _ & Hsww).
    rewrite Hn' in Hn. apply ValueFacts.Some_inj in Hn. subst n.
    exact Hsww.
  - destruct (Hseventh (list Z) ScriptedDevice (Double.of_Z 10) 5
                (fresh [0xDEAD]) Hd)
      as (n & r & this' & Hn & Hrun & _ & _ & _ & _ & Hline & Hlost).
    rewrite Hn' in Hn. apply ValueFacts.Some_inj in Hn. subst n.
    assert (Hr : r = 0).
    { apply Hlost; [vm_compute; discriminate|vm_compute; reflexivity]. }
    exists this'. split; [rewrite Hrun, Hr; reflexivity|].
    apply Hline. vm_compute. discriminate.
Defined.

(** C9 at 4.4 microseconds, with a device that rejects both requests. *)
Lemma ApplyNewIntegralTimeAndGain_at_4_4 :
  is_duration (Double.decimal 44 1) /\
  exists (r : Z) (this' : LeachController (list Z)),
    runStateT (ApplyNewIntegralTimeAndGain (Double.decimal 44 1) 2)
      (fresh [0xDEAD; 0xBEEF]) = Some (r, this') /\
    r = -1 /\
    ItgSpeed this' = 1 /\
    sent this' =
      [mkRequest TIM_ID SGN [2; 1]; mkRequest TIM_ID CIT [0x8D0000]] /\
    pArcDev this' = [] /\
    console this' =
      [ErrorReply "Error setting the speed and gain" 0xDEAD;
       ErrorReply "Error setting the integration time" 0xBEEF].
Proof.
  assert (Hd : is_duration (Double.decimal 44 1)) by (split; reflexivity).
  split; [exact Hd|].
  destruct (ApplyNewIntegralTimeAndGain_speed_then_time
              (Double.decimal 44 1) 2 (fresh [0xDEAD; 0xBEEF]))
    as [Hreturns Hafter].
  destruct (Hreturns Hd) as (r & this' & Hrun).
  destruct (Hafter r this' Hrun)
    as (_ & Hspeed & n & Hn & Hsent & Hdev & Hr & Hconsole).
  exists r, this'. split; [exact Hrun|].
  assert (Hn' : iTime_ns_of (Double.decimal 44 1) = Some 4400) by reflexivity.
  rewrite Hn' in Hn. apply ValueFacts.Some_inj in Hn. subst n.
  assert (Hspeed' : ItgSpeed this' = 1) by exact Hspeed.
  rewrite Hspeed' in Hsent, Hdev, Hr, Hconsole.
  split; [exact Hr|]. split; [exact Hspeed'|].
  split; [exact Hsent|]. split; [exact Hdev|]. exact Hconsole.
Defined.

(** C10 at 0.0005 microseconds. *)
Lemma CalculateTiming_zero_ns_at_half_ns :
  iTime_ns_of (Double.decimal 5 4) = Some 0 /\
  evalStateT (CalculateTiming (Double.decimal 5 4)) (fresh []) = Some 0x800000.
Proof.
  assert (Hns : iTime_ns_of (Double.decimal 5 4) = Some 0) by reflexivity.
  split; [exact Hns|].
  apply (proj1 (CalculateTiming_zero_ns (fresh [])) (Double.decimal 5 4) Hns).
Defined.

(* ===================================================================== *)
(** ** How close the nanosecond count is to the exact product *)
(* ===================================================================== *)

Module AccuracyFacts.

Import Double DoubleFacts.

(** The nanosecond count [n] of a positive duration [m * 2^e] up to 163,
    against the exact product [m * 2^e * 1000]: the product is below
    [n + 1], and [n] is above it by at most [2^-35]. *)
Lemma finite_times_1000_bounds (m : positive) (e : Z) :
  valid (S754_finite false m e) = true ->
  gtb (S754_finite false m e) (of_Z 163) = false ->
  e <= -45 /\
  exists n,
    to_int (mul (S754_finite false m e) (of_Z 1000)) = Some n /\
    0 <= n /\
    Zpos m * 1000 < (n + 1) * 2 ^ (- e) /\
    n * 2 ^ (- e) * 2 ^ 35 <= Zpos m * 1000 * 2 ^ 35 + 2 ^ (- e).
Proof.
  intros Hv Hgt.
  destruct (DurationFacts.not_above_163 m e Hv Hgt) as [He Hm].
  split; [exact He|].
  rewrite DurationFacts.of_Z_1000. unfold mul, SFmul. simpl xorb.
  set (M := Zpos (m * 8796093022208000)).
  set (E := e + -43).
  assert (HMpos : 0 < M) by (unfold M; lia).
  set (U := 2 ^ (- E)).
  set (V := 2 ^ (- e)).
  assert (HVpos : 0 < V) by (unfold V; pow2).
  assert (HUV : U = 2 ^ 43 * V).
  { unfold U, V, E. rewrite <- Z.pow_add_r by lia. f_equal. lia. }
  assert (HV45 : V = 2 ^ 45 * 2 ^ (- e - 45)).
  { unfold V. rewrite <- Z.pow_add_r by lia. f_equal. lia. }
  assert (HMm : M = Zpos m * 1000 * 2 ^ 43).
  { unfold M. rewrite Pos2Z.inj_mul.
    change (Zpos 8796093022208000) with (1000 * 2 ^ 43). ring. }
  assert (HUpos : 0 < U) by (unfold U, E; pow2).
  assert (HM : M <= 163000 * U).
  { rewrite HMm, HUV, HV45.
    replace (163000 * (2 ^ 43 * (2 ^ 45 * 2 ^ (- e - 45))))
      with ((163 * 2 ^ 45 * 2 ^ (- e - 45)) * 1000 * 2 ^ 43) by ring.
    apply Z.mul_le_mono_nonneg_r; [reflexivity || lia|].
    apply Z.mul_le_mono_nonneg_r; [lia|exact Hm]. }
  assert (H18 : 2 ^ (18 - E) = 262144 * U).
  { unfold U. replace (18 - E) with (18 + - E) by lia.
    rewrite Z.pow_add_r by (unfold E; lia). reflexivity. }
  destruct (binary_round_aux_exact false M E HMpos)
    as (n1 & m2 & n2 & Hn1 & Hm2 & Hn2 & Hres).
  rewrite Hres. clear Hres.
  assert (Hd1 : Zdigits2 M + E <= 18).
  { unfold M at 1. simpl Zdigits2.
    pose proof (digits2_bounds (m * 8796093022208000)) as [Hlo _].
    fold M in Hlo.
    assert (Hlt : 2 ^ (Zpos (digits2_pos (m * 8796093022208000)) - 1) < 2 ^ (18 - E)).
    { rewrite H18. lia. }
    apply Z.pow_lt_mono_r_iff in Hlt; lia. }
  assert (Hn1b : 0 <= n1 <= - E - 35).
  { subst n1. unfold fexp, SpecFloat.emin, prec, emax. unfold E in *. lia. }
  set (P1 := 2 ^ n1) in *.
  assert (HP1 : 0 < P1) by (unfold P1; pow2).
  assert (HP1U : P1 * 2 ^ 35 <= U).
  { unfold P1, U. rewrite <- Z.pow_add_r by lia. apply Z.pow_le_mono_r; lia. }
  assert (Hm2P : 0 <= m2 /\ m2 * P1 <= M + P1 /\ M < (m2 + 1) * P1).
  { pose proof (Z.mul_div_le M P1 HP1).
    pose proof (Z.mul_succ_div_gt M P1 HP1).
    assert (0 <= M / P1) by (apply Z.div_pos; lia). nia. }
  destruct Hm2P as (Hm2nn & Hm2P & Hm2lo).
  assert (Hd2 : Zdigits2 m2 + (E + n1) <= 18).
  { destruct m2 as [|p2|p2]; simpl Zdigits2; [lia| |lia].
    pose proof (digits2_bounds p2) as [Hlo _].
    assert (Hlt : 2 ^ (Zpos (digits2_pos p2) - 1 + n1) < 2 ^ (18 - E)).
    { rewrite Z.pow_add_r by lia. fold P1. rewrite H18.
      change (2 ^ 35) with 34359738368 in HP1U. nia. }
    apply Z.pow_lt_mono_r_iff in Hlt; lia. }
  assert (Hn2b : 0 <= n2 /\ E + n1 + n2 <= -35).
  { subst n2. unfold fexp, SpecFloat.emin, prec, emax. lia. }
  destruct Hn2b as [Hn2nn He3].
  set (P2 := 2 ^ n2) in *.
  assert (HP2 : 0 < P2) by (unfold P2; pow2).
  set (e3 := E + n1 + n2) in *.
  set (Q := 2 ^ (- e3)).
  assert (HQ : 0 < Q) by (unfold Q; pow2).
  assert (HUQ : U = Q * P1 * P2).
  { unfold U, Q, P1, P2. rewrite <- !Z.pow_add_r by lia. f_equal. unfold e3. lia. }
  assert (Hm3 : 0 <= m2 / P2 /\ (m2 / P2) * P2 <= m2 /\ m2 < (m2 / P2 + 1) * P2).
  { split; [apply Z.div_pos; lia|].
    pose proof (Z.mul_div_le m2 P2 HP2).
    pose proof (Z.mul_succ_div_gt m2 P2 HP2). nia. }
  destruct Hm3 as (Hm3nn & Hm3 & Hm3lo).
  (* the count [n] is the quotient of the last mantissa by [Q] *)
  assert (Hcount : exists n,
             0 <= n /\ n * Q <= m2 / P2 /\ m2 / P2 < (n + 1) * Q /\
             match m2 / P2 with
             | 0 => Some 0
             | Zpos m3 => Some (Zpos m3 / Q)
             | Zneg _ => None
             end = Some n).
  { destruct (m2 / P2) as [|m3|m3] eqn:Hq; [| |lia].
    - exists 0. repeat split; lia.
    - exists (Zpos m3 / Q).
      pose proof (Z.mul_div_le (Zpos m3) Q HQ).
      pose proof (Z.mul_succ_div_gt (Zpos m3) Q HQ).
      assert (0 <= Zpos m3 / Q) by (apply Z.div_pos; lia).
      repeat split; try lia; nia. }
  destruct Hcount as (n & Hn0 & Hnlo & Hnhi & Hn).
  set (m3 := m2 / P2) in *.
  (* both bounds, in units of [U] *)
  assert (Hup : n * U <= M + P1).
  { rewrite HUQ.
    assert (n * Q * P2 <= m2) by nia.
    assert (n * Q * P2 * P1 <= m2 * P1) by (apply Z.mul_le_mono_nonneg_r; lia).
    replace (n * (Q * P1 * P2)) with (n * Q * P2 * P1) by ring. lia. }
  assert (Hdown : M < (n + 1) * U).
  { rewrite HUQ.
    assert (m3 + 1 <= (n + 1) * Q) by lia.
    assert (m2 + 1 <= (n + 1) * Q * P2) by nia.
    assert ((m2 + 1) * P1 <= (n + 1) * Q * P2 * P1)
      by (apply Z.mul_le_mono_nonneg_r; lia).
    replace ((n + 1) * (Q * P1 * P2)) with ((n + 1) * Q * P2 * P1) by ring. lia. }
  assert (Hn163 : n <= 163000).
  { change (2 ^ 35) with 34359738368 in HP1U. nia. }
  exists n. split; [|split; [exact Hn0|split]].
  - assert (Hint : forall z, 0 <= z <= 163000 ->
              (if (INT_MIN <=? z) && (z <=? INT_MAX) then Some z else None) = Some z).
    { intros z Hz.
      replace ((INT_MIN <=? z) && (z <=? INT_MAX)) with true; [reflexivity|].
      symmetry. apply andb_true_iff. unfold INT_MIN, INT_MAX.
      change (- 2 ^ 31) with (-2147483648). change (2 ^ 31 - 1) with 2147483647.
      split; apply Z.leb_le; lia. }
    subst m3.
    destruct (m2 / P2) as [|p3|p3] eqn:Hq; try discriminate.
    + apply ValueFacts.Some_inj in Hn. subst n. reflexivity.
    + replace (e3 <=? emax - prec) with true
        by (symmetry; apply Z.leb_le; unfold emax, prec; lia).
      unfold to_int, truncate.
      replace (0 <=? e3) with false by (symmetry; apply Z.leb_gt; lia).
      fold Q. apply ValueFacts.Some_inj in Hn. rewrite Hn.
      apply Hint. lia.
  - rewrite HMm, HUV in Hdown.
    assert (H43 : 0 < 2 ^ 43) by reflexivity.
    fold V. nia.
  - rewrite HMm, HUV in Hup. rewrite HUV in HP1U.
    assert (H43 : 0 < 2 ^ 43) by reflexivity.
    fold V.
    assert (Hs : (n * V * 2 ^ 35) * 2 ^ 43 <= (Zpos m * 1000 * 2 ^ 35 + V) * 2 ^ 43).
    { change (2 ^ 35) with 34359738368 in *. nia. }
    apply Z.mul_le_mono_pos_r in Hs; [exact Hs|exact H43].
Qed.

End AccuracyFacts.

(* ===================================================================== *)
(** ** Further properties of [CalculateTiming] *)
(* ===================================================================== *)

Section TimingAccuracy.

Context {Dev : Type}.

Implicit Type this : LeachController Dev.

(** X1: for a finite duration up to 163, of exact value [q], the
    nanosecond count [n] that [CalculateTiming] works on is the integer
    part of the exact product [q * 1000], or the next integer when the
    product is within [2^-35] below it: [q * 1000 < n + 1] and
    [n <= q * 1000 + 2^-35]. When the exact product is an integer, [n] is
    that integer. *)
Theorem iTime_ns_accuracy (d : double) (q : Q) this :
  is_duration d ->
  Double.gtb d (Double.of_Z 163) = false ->
  value d = Some q ->
  exists n : Z,
    iTime_ns_of d = Some n /\
    evalStateT (CalculateTiming d) this = Some (timing_dsp_of n) /\
    (q * inject_Z 1000 < inject_Z (n + 1))%Q /\
    (inject_Z n <= q * inject_Z 1000 + (1 # 34359738368))%Q /\
    (forall k : Z, (q * inject_Z 1000 == inject_Z k)%Q -> n = k).
Proof.
  intros [Hv Hnn] Hgt Hq.
  assert (Hns : iTime_ns_of d
                = Double.to_int (Double.mul d (Double.of_Z 1000))).
  { unfold iTime_ns_of, clamped. rewrite Hgt. reflexivity. }
  assert (Heval : forall n, iTime_ns_of d = Some n ->
            evalStateT (CalculateTiming d) this = Some (timing_dsp_of n)).
  { intros n Hn. unfold evalStateT. rewrite run_CalculateTiming, Hn. reflexivity. }
  destruct d as [s|s| |s m e]; try discriminate.
  - apply ValueFacts.Some_inj in Hq. subst q.
    exists 0. split; [rewrite Hns; reflexivity|].
    split; [apply Heval; rewrite Hns; reflexivity|].
    unfold Qlt, Qle, Qeq, Qmult, Qplus, inject_Z; cbn [Qnum Qden].
    repeat split; intros; lia.
  - destruct s; [discriminate|].
    destruct (AccuracyFacts.finite_times_1000_bounds m e Hv Hgt)
      as (He & n & Hn & Hn0 & Hlo & Hhi).
    unfold value in Hq.
    replace (0 <=? e) with false in Hq by (symmetry; apply Z.leb_gt; lia).
    apply ValueFacts.Some_inj in Hq. subst q.
    exists n. split; [rewrite Hns; exact Hn|].
    split; [apply Heval; rewrite Hns; exact Hn|].
    assert (HV : 0 < 2 ^ (- e)) by (apply DoubleFacts.pow2_pos; lia).
    unfold Qlt, Qle, Qeq, Qmult, Qplus, inject_Z; cbn [Qnum Qden].
    rewrite !Pos2Z.inj_mul, !ValueFacts.Zpos_pow2 by lia.
    change (2 ^ 35) with 34359738368 in Hhi.
    repeat split; intros; nia.
Qed.

End TimingAccuracy.

(** X1 at 0.12 microseconds, whose nearest double lies below it. *)
Lemma iTime_ns_accuracy_at_0_12 :
  is_duration (Double.decimal 12 2) /\
  exists n : Z,
    iTime_ns_of (Double.decimal 12 2) = Some n /\
    ((8646911284551352 # 72057594037927936) * inject_Z 1000 < inject_Z (n + 1))%Q.
Proof.
  assert (Hd : is_duration (Double.decimal 12 2)) by (split; reflexivity).
  split; [exact Hd|].
  destruct (iTime_ns_accuracy (Double.decimal 12 2)
              (8646911284551352 # 72057594037927936) (fresh [])
              Hd eq_refl eq_refl)
    as (n & Hn & _ & Hlt & _).
  exists n. split; [exact Hn|exact Hlt].
Defined.

Module TimingFacts.

Lemma rem_nonneg (a b : Z) : 0 <= a -> 0 < b -> Int.rem a b = a mod b.
Proof. intros Ha Hb. unfold Int.rem. apply Z.rem_mod_nonneg; assumption. Qed.

(** A check of all numbers below 128 settles a statement about them. *)
Lemma below_128 (P : Z -> bool) :
  forallb P (map Z.of_nat (seq 0 128)) = true ->
  forall s : Z, 0 <= s < 128 -> P s = true.
Proof.
  intros Hall s Hs. rewrite forallb_forall in Hall. apply Hall.
  apply in_map_iff. exists (Z.to_nat s). split; [lia|].
  apply in_seq. lia.
Qed.

Lemma testbit_7_below_128 (s : Z) : 0 <= s < 128 -> Z.testbit s 7 = false.
Proof.
  intros Hs. apply negb_true_iff.
  apply (below_128 (fun s => negb (Z.testbit s 7))); [vm_compute; reflexivity|exact Hs].
Qed.

Lemma timing_ns_fine (s : Z) : 0 <= s < 128 -> timing_ns s = 40 * s.
Proof.
  intros Hs. apply Z.eqb_eq.
  apply (below_128 (fun s => timing_ns s =? 40 * s)); [vm_compute; reflexivity|exact Hs].
Qed.

Lemma timing_ns_coarse (s : Z) :
  0 <= s < 128 -> timing_ns (Z.lor s 0x80) = 320 * s.
Proof.
  intros Hs. apply Z.eqb_eq.
  apply (below_128 (fun s => timing_ns (Z.lor s 0x80) =? 320 * s));
    [vm_compute; reflexivity|exact Hs].
Qed.

Lemma testbit_7_lor (x : Z) : Z.testbit (Z.lor x 0x80) 7 = true.
Proof. rewrite Z.lor_spec. apply orb_true_r. Qed.

(** The two remainders and the choice, on a count that is not negative. *)
Lemma bigreminder_nonneg (n : Z) :
  0 <= n ->
  bigreminder_of n = (if n mod 320 >? 160 then 320 - n mod 320 else n mod 320).
Proof. intros Hn. unfold bigreminder_of. rewrite !rem_nonneg by lia. reflexivity. Qed.

Lemma littlereminder_nonneg (n : Z) :
  0 <= n ->
  littlereminder_of n = (if n mod 40 >? 20 then 40 - n mod 40 else n mod 40).
Proof. intros Hn. unfold littlereminder_of. rewrite !rem_nonneg by lia. reflexivity. Qed.

Lemma littlereminder_range (n : Z) : 0 <= n -> 0 <= littlereminder_of n <= 20.
Proof.
  intros Hn. rewrite littlereminder_nonneg by exact Hn.
  pose proof (Z.mod_pos_bound n 40 ltac:(lia)).
  destruct (Z.gtb_spec (n mod 40) 20); lia.
Qed.

Lemma bigreminder_range (n : Z) : 0 <= n -> 0 <= bigreminder_of n <= 160.
Proof.
  intros Hn. rewrite bigreminder_nonneg by exact Hn.
  pose proof (Z.mod_pos_bound n 320 ltac:(lia)).
  destruct (Z.gtb_spec (n mod 320) 160); lia.
Qed.

(** In the comparison branch the steps of 320 ns are chosen only within
    20 ns of a multiple of 320, on either side. *)
Lemma coarse_below_4000 (n : Z) :
  0 <= n <= 4000 -> coarse n = true ->
  n mod 320 <= 20 \/ 300 <= n mod 320.
Proof.
  intros Hn Hc. unfold coarse in Hc.
  destruct (Z.gtb_spec n 4000) as [Hgt|_]; [lia|].
  cbn [orb] in Hc. apply Z.leb_le in Hc.
  pose proof (littlereminder_range n ltac:(lia)).
  rewrite bigreminder_nonneg in Hc by lia.
  destruct (Z.gtb_spec (n mod 320) 160); lia.
Qed.

(** The byte of a count up to 163000: its range, and its 8th bit. *)
Lemma timing_byte_shape (n : Z) :
  0 <= n <= 163000 ->
  0 <= timing_byte_of n < 2 ^ 9 /\
  Z.testbit (timing_byte_of n) 7 = coarse n /\
  (coarse n = false -> 0 <= n <= 4000 /\ timing_byte_of n = n / 40) /\
  (coarse n = true -> timing_byte_of n = Z.lor (n / 320) 0x80).
Proof.
  intros Hn. unfold timing_byte_of.
  destruct (coarse n) eqn:Hc.
  - unfold Int.or. rewrite IntFacts.div_nonneg by lia.
    split; [apply IntFacts.timing_byte_coarse_range; exact Hn|].
    split; [apply testbit_7_lor|]. split; [discriminate|reflexivity].
  - assert (Hle : n <= 4000).
    { unfold coarse in Hc. apply orb_false_iff in Hc. destruct Hc as [Hc _].
      destruct (Z.gtb_spec n 4000); [discriminate Hc|assumption]. }
    rewrite IntFacts.div_nonneg by lia.
    assert (H40 : 0 <= n / 40 <= 100) by (Z.div_mod_to_equations; lia).
    split; [change (2 ^ 9) with 512; lia|].
    split; [apply testbit_7_below_128; lia|].
    split; [intros _; split; [lia|reflexivity]|discriminate].
Qed.

(** The shift of a byte below [2^9] does not overflow; the byte sits in
    bits 16 and up. *)
Lemma timing_dsp_shape (n : Z) :
  0 <= n <= 163000 ->
  timing_dsp_of n = timing_byte_of n * 65536 /\
  0 <= timing_dsp_of n <= 0x1FF0000 /\
  bits 15 0 (timing_dsp_of n) = 0 /\
  Z.testbit (timing_dsp_of n) 23 = coarse n.
Proof.
  intros Hn. destruct (timing_byte_shape n Hn) as (Hr & Hbit & _).
  change (2 ^ 9) with 512 in Hr.
  assert (Hshl : timing_dsp_of n = Z.shiftl (timing_byte_of n) 16).
  { unfold timing_dsp_of. apply IntFacts.shl_16_small.
    change (2 ^ 15) with 32768. lia. }
  rewrite Hshl. split; [|split; [|split]].
  - rewrite Z.shiftl_mul_pow2 by lia. reflexivity.
  - rewrite Z.shiftl_mul_pow2 by lia. change (2 ^ 16) with 65536. lia.
  - apply IntFacts.bits_15_0_shiftl.
  - rewrite Z.shiftl_spec by lia. exact Hbit.
Qed.

(** Below 40960 ns the byte is the field of bits 23 to 16. *)
Lemma timing_dsp_byte (n : Z) :
  0 <= n < 40960 ->
  bits 23 16 (timing_dsp_of n) = timing_byte_of n /\
  bits 22 16 (timing_dsp_of n) = Z.land (timing_byte_of n) 0x7F.
Proof.
  intros Hn.
  destruct (IntFacts.timing_byte_below_40960 n Hn) as (_ & Hr).
  assert (Hshl : timing_dsp_of n = Z.shiftl (timing_byte_of n) 16).
  { unfold timing_dsp_of. apply IntFacts.shl_16_small.
    change (2 ^ 8) with 256 in Hr. change (2 ^ 15) with 32768. lia. }
  rewrite Hshl. unfold bits.
  rewrite Z.shiftr_shiftl_l by lia. change (16 - 16) with 0. rewrite Z.shiftl_0_r.
  split.
  - change (23 - 16 + 1) with 8. rewrite Z.land_ones by lia.
    apply Z.mod_small. exact Hr.
  - reflexivity.
Qed.

(** What the byte of a count below 40960 stands for: the multiple of
    the step at or below the count. *)
Lemma timing_ns_of_byte (n : Z) :
  0 <= n < 40960 ->
  timing_ns (timing_byte_of n)
    = (if coarse n then 320 * (n / 320) else 40 * (n / 40)).
Proof.
  intros Hn.
  destruct (timing_byte_shape n ltac:(lia)) as (_ & _ & Hfine & Hcoarse).
  destruct (coarse n) eqn:Hc.
  - rewrite (Hcoarse eq_refl). apply timing_ns_coarse.
    Z.div_mod_to_equations; lia.
  - destruct (Hfine eq_refl) as [Hle ->]. apply timing_ns_fine.
    Z.div_mod_to_equations; lia.
Qed.

End TimingFacts.

Section TimingShape.

Context {Dev : Type}.

Implicit Type this : LeachController Dev.

(** A duration has a nanosecond count up to 163000, and [CalculateTiming]
    returns the word of that count. *)
Lemma CalculateTiming_of_duration (d : double) this :
  is_duration d ->
  exists n : Z,
    iTime_ns_of d = Some n /\ 0 <= n <= 163000 /\
    evalStateT (CalculateTiming d) this = Some (timing_dsp_of n).
Proof.
  intros Hd.
  destruct (DurationFacts.iTime_ns_of_duration d Hd) as (n & Hn & Hr).
  exists n. split; [exact Hn|]. split; [exact Hr|].
  unfold evalStateT. rewrite run_CalculateTiming, Hn. reflexivity.
Qed.

(** X2: for every duration the shift by 16 stays within [int]: the word
    returned is the timing byte times 65536, it is not negative and at
    most 0x1FF0000, and its low 16 bits are clear. Bit 23 tells the step:
    it is set exactly when the steps of 320 ns were chosen. When it is
    clear the count is at most 4000 ns and bits 22 to 16 hold the count
    divided by 40, at most 100. *)
Theorem CalculateTiming_word_shape (d : double) this :
  is_duration d ->
  exists n w : Z,
    iTime_ns_of d = Some n /\
    evalStateT (CalculateTiming d) this = Some w /\
    w = timing_byte_of n * 65536 /\
    0 <= w <= 0x1FF0000 /\
    bits 15 0 w = 0 /\
    Z.testbit w 23 = coarse n /\
    (Z.testbit w 23 = false ->
     n <= 4000 /\ bits 22 16 w = n / 40 /\ n / 40 <= 100).
Proof.
  intros Hd.
  destruct (CalculateTiming_of_duration d this Hd) as (n & Hn & Hr & Hw).
  destruct (TimingFacts.timing_dsp_shape n Hr) as (Hmul & Hrange & Hlow & Hbit).
  exists n, (timing_dsp_of n).
  repeat (split; [assumption|]).
  rewrite Hbit. intros Hfine.
  destruct (TimingFacts.timing_byte_shape n Hr) as (_ & _ & Hf & _).
  destruct (Hf Hfine) as [Hle Hbyte].
  destruct (TimingFacts.timing_dsp_byte n ltac:(lia)) as [_ H22].
  assert (H40 : 0 <= n / 40 <= 100) by (Z.div_mod_to_equations; lia).
  split; [lia|]. split; [|lia].
  rewrite H22, Hbyte. change 0x7F with (Z.ones 7).
  rewrite Z.land_ones by lia. apply Z.mod_small.
  change (2 ^ 7) with 128. lia.
Qed.

(** X3: for a duration of less than 40960 ns, the time the returned byte
    stands for (bits 23 to 16, read as the header comment says) is never
    more than the nanosecond count, and falls short of it by less than
    one step: 320 ns when bit 23 is set, 40 ns when it is clear. *)
Theorem CalculateTiming_never_late (d : double) this :
  is_duration d ->
  exists n w : Z,
    iTime_ns_of d = Some n /\
    evalStateT (CalculateTiming d) this = Some w /\
    (n < 40960 ->
     timing_ns (bits 23 16 w) <= n /\
     n < timing_ns (bits 23 16 w) + (if Z.testbit w 23 then 320 else 40)).
Proof.
  intros Hd.
  destruct (CalculateTiming_of_duration d this Hd) as (n & Hn & Hr & Hw).
  exists n, (timing_dsp_of n).
  split; [exact Hn|]. split; [exact Hw|]. intros Hlt.
  destruct (TimingFacts.timing_dsp_shape n Hr) as (_ & _ & _ & Hbit).
  destruct (TimingFacts.timing_dsp_byte n ltac:(lia)) as [H23 _].
  rewrite H23, Hbit, TimingFacts.timing_ns_of_byte by lia.
  destruct (coarse n); Z.div_mod_to_equations; lia.
Qed.

(** X4: in the branch that compares the remainders (a count up to 4000
    ns), the steps of 320 ns are chosen only when the count is within 20
    ns of a multiple of 320, above it or below it; the byte then stands
    for the multiple at or below the count. So a count 1 to 20 ns below a
    multiple of 320, and at least as close to it as to a multiple of 40,
    gets the multiple before: the time encoded is 300 ns or more short. *)
Theorem CalculateTiming_coarse_near_multiple (d : double) this :
  is_duration d ->
  exists n w : Z,
    iTime_ns_of d = Some n /\
    evalStateT (CalculateTiming d) this = Some w /\
    (n <= 4000 -> Z.testbit w 23 = true ->
     (n mod 320 <= 20 \/ 300 <= n mod 320) /\
     n - timing_ns (bits 23 16 w) = n mod 320) /\
    (n <= 4000 -> 300 <= n mod 320 ->
     320 - n mod 320 <= littlereminder_of n ->
     Z.testbit w 23 = true /\ 300 <= n - timing_ns (bits 23 16 w)).
Proof.
  intros Hd.
  destruct (CalculateTiming_of_duration d this Hd) as (n & Hn & Hr & Hw).
  exists n, (timing_dsp_of n).
  split; [exact Hn|]. split; [exact Hw|].
  destruct (TimingFacts.timing_dsp_shape n Hr) as (_ & _ & _ & Hbit).
  rewrite Hbit.
  assert (Hshort : n <= 4000 -> coarse n = true ->
            n - timing_ns (bits 23 16 (timing_dsp_of n)) = n mod 320).
  { intros Hle Hc.
    destruct (TimingFacts.timing_dsp_byte n ltac:(lia)) as [H23 _].
    rewrite H23, TimingFacts.timing_ns_of_byte, Hc by lia.
    Z.div_mod_to_equations; lia. }
  split.
  - intros Hle Hc. split; [|apply Hshort; assumption].
    apply TimingFacts.coarse_below_4000; [lia|exact Hc].
  - intros Hle Hmod Hcmp.
    assert (Hc : coarse n = true).
    { unfold coarse. apply orb_true_iff. right. apply Z.leb_le.
      rewrite TimingFacts.bigreminder_nonneg by lia.
      destruct (Z.gtb_spec (n mod 320) 160); lia. }
    split; [exact Hc|]. rewrite Hshort by assumption. exact Hmod.
Qed.

(** X5: the times the byte can express are returned as they are asked: a
    count up to 4000 ns that is a multiple of 40, and a count above 4000
    and below 40960 ns that is a multiple of 320, yield a byte that
    stands for exactly that count. *)
Theorem CalculateTiming_exact_on_multiples (d : double) this :
  is_duration d ->
  exists n w : Z,
    iTime_ns_of d = Some n /\
    evalStateT (CalculateTiming d) this = Some w /\
    ((n <= 4000 /\ n mod 40 = 0) \/ (4000 < n < 40960 /\ n mod 320 = 0) ->
     timing_ns (bits 23 16 w) = n).
Proof.
  intros Hd.
  destruct (CalculateTiming_of_duration d this Hd) as (n & Hn & Hr & Hw).
  exists n, (timing_dsp_of n).
  split; [exact Hn|]. split; [exact Hw|]. intros Hmul.
  assert (Hlt : 0 <= n < 40960) by lia.
  destruct (TimingFacts.timing_dsp_byte n Hlt) as [H23 _].
  rewrite H23, TimingFacts.timing_ns_of_byte by exact Hlt.
  destruct Hmul as [[Hle H40]|[Hgt H320]].
  - destruct (coarse n) eqn:Hc; [|Z.div_mod_to_equations; lia].
    unfold coarse in Hc.
    destruct (Z.gtb_spec n 4000) as [Hgt|_]; [lia|]. cbn [orb] in Hc.
    apply Z.leb_le in Hc.
    rewrite TimingFacts.bigreminder_nonneg, TimingFacts.littlereminder_nonneg in Hc by lia.
    rewrite H40 in Hc. change (if 0 >? 20 then 40 - 0 else 0) with 0 in Hc.
    pose proof (Z.mod_pos_bound n 320 ltac:(lia)).
    destruct (Z.gtb_spec (n mod 320) 160); Z.div_mod_to_equations; lia.
  - rewrite (IntFacts.coarse_above_4000 n) by lia.
    Z.div_mod_to_equations; lia.
Qed.

End TimingShape.

(* ===================================================================== *)
(** ** Further properties of the procedures *)
(* ===================================================================== *)

Section CallFacts.

Context {Dev : Type} `{ArcDevice Dev}.

Implicit Type this : LeachController Dev.

(** What one call leaves behind: the requests read off its arguments are
    on record, the value returned is 0 or -1, the speed is the one of the
    call if it is [CallIntegralTimeAndGain] and the one before otherwise,
    and -1 comes with a line on the console; if the device answers [DON]
    to all, 0 is returned and no line about a reply is written. *)
Lemma perform_effect (c : Call) this :
  call_ok c ->
  exists (rqs : list Request) (r : Z) (this' : LeachController Dev),
    requests_of c = Some rqs /\
    runStateT (perform c) this = Some (r, this') /\
    sent this' = sent this ++ rqs /\
    (r = 0 \/ r = -1) /\
    ItgSpeed this' = speed_after (ItgSpeed this) [c] /\
    ((forall (dev : Dev) (rq : Request), fst (Command dev rq) = DON) ->
     r = 0 /\
     filter is_ErrorReply (console this')
       = filter is_ErrorReply (console this)).
Proof.
  assert (Hwarned : forall d, filter is_ErrorReply (console (warned d this))
                              = filter is_ErrorReply (console this)).
  { intros d. unfold warned. destruct (Double.gtb d (Double.of_Z 163)); [|reflexivity].
    cbn [console]. rewrite filter_app. cbn. apply app_nil_r. }
  assert (Hsingle : forall (w : CommandWord) (what : string) (d : double),
    is_duration d ->
    exists (rqs : list Request) (r : Z) (this' : LeachController Dev),
      timing_requests w d = Some rqs /\
      runStateT
        (timing_dsp <- CalculateTiming d ;;
         dReply <- pArcDev_Command TIM_ID w [timing_dsp] ;;
         if dReply =? DON then ret 0
         else print (ErrorReply what dReply) ;; ret (-1)) this = Some (r, this') /\
      sent this' = sent this ++ rqs /\
      (r = 0 \/ r = -1) /\
      ItgSpeed this' = ItgSpeed this /\
      ((forall (dev : Dev) (rq : Request), fst (Command dev rq) = DON) ->
       r = 0 /\
       filter is_ErrorReply (console this')
         = filter is_ErrorReply (console this))).
  { intros w what d Hd.
    destruct (DurationFacts.iTime_ns_of_duration d Hd) as (n & Hn & _).
    destruct (warned_fields d this) as (Hspeed & _ & Hsent).
    rewrite run_single_word. unfold timing_requests. rewrite Hn. cbn [option_map].
    eexists. eexists. eexists.
    split; [reflexivity|]. split; [reflexivity|].
    split; [unfold after_Command; cbn [sent]; rewrite Hsent; reflexivity|].
    split; [apply outcome_cases|].
    split; [unfold after_Command; cbn [ItgSpeed]; exact Hspeed|].
    intros Hdon. unfold outcome, after_Command; cbn [console].
    rewrite Hdon, Z.eqb_refl, app_nil_r. split; [reflexivity|apply Hwarned]. }
  destruct c as [t gain|gain speed|d|d|d|d|d|d]; cbn [call_ok perform requests_of];
    intros Hok; try (apply Hsingle; exact Hok).
  - destruct (DurationFacts.iTime_ns_of_duration t Hok) as (n & Hn & _).
    destruct (warned_fields t this) as (_ & _ & Hsent).
    rewrite run_ApplyNewIntegralTimeAndGain, Hn. cbv zeta. cbn [option_map].
    eexists. eexists. eexists.
    split; [reflexivity|]. split; [reflexivity|].
    split; [unfold after_Command, with_ItgSpeed; cbn [sent];
            rewrite Hsent, <- app_assoc; reflexivity|].
    split; [apply outcome_cases|].
    split; [reflexivity|].
    intros Hdon. unfold outcome, after_Command, with_ItgSpeed; cbn [console].
    rewrite !Hdon, Z.eqb_refl, !app_nil_r. split; [reflexivity|apply Hwarned].
  - rewrite run_ApplyGainAndSpeed.
    eexists. eexists. eexists.
    split; [reflexivity|]. split; [reflexivity|].
    split; [reflexivity|].
    split; [apply outcome_cases|].
    split; [reflexivity|].
    intros Hdon. unfold outcome, after_Command; cbn [console].
    rewrite Hdon, Z.eqb_refl, app_nil_r. split; reflexivity.
Qed.

Lemma run_perform_all_cons (c : Call) (l : list Call) this :
  runStateT (perform_all (c :: l)) this =
    match runStateT (perform c) this with
    | Some (r, this1) =>
        match runStateT (perform_all l) this1 with
        | Some (rs, this2) => Some (r :: rs, this2)
        | None => None
        end
    | None => None
    end.
Proof.
  cbn [perform_all]. rewrite run_bind.
  destruct (runStateT (perform c) this) as [[r this1]|]; [|reflexivity].
  rewrite run_bind.
  destruct (runStateT (perform_all l) this1) as [[rs this2]|]; reflexivity.
Qed.

Lemma speed_after_cons (v : Z) (c : Call) (l : list Call) :
  speed_after v (c :: l) = speed_after (speed_after v [c]) l.
Proof. reflexivity. Qed.

(** What a sequence of calls leaves behind. *)
Lemma perform_all_effect (l : list Call) : forall this,
  Forall call_ok l ->
  exists (rqs : list Request) (rs : list Z) (this' : LeachController Dev),
    requests_of_all l = Some rqs /\
    runStateT (perform_all l) this = Some (rs, this') /\
    sent this' = sent this ++ rqs /\
    List.length rs = List.length l /\
    Forall (fun r => r = 0 \/ r = -1) rs /\
    ItgSpeed this' = speed_after (ItgSpeed this) l /\
    ((forall (dev : Dev) (rq : Request), fst (Command dev rq) = DON) ->
     Forall (fun r => r = 0) rs /\
     filter is_ErrorReply (console this')
       = filter is_ErrorReply (console this)).
Proof.
  induction l as [|c l IH]; intros this Hok.
  - exists [], [], this. cbn [requests_of_all perform_all].
    rewrite run_ret, app_nil_r.
    repeat split; try reflexivity; constructor.
  - inversion Hok as [|c' l' Hc Hl]; subst.
    destruct (perform_effect c this Hc)
      as (rq1 & r & this1 & Hrq1 & Hrun1 & Hsent1 & Hr & Hspeed1 & Hdon1).
    destruct (IH this1 Hl)
      as (rq2 & rs & this2 & Hrq2 & Hrun2 & Hsent2 & Hlen & Hrs & Hspeed2 & Hdon2).
    exists (rq1 ++ rq2), (r :: rs), this2.
    split; [cbn [requests_of_all]; rewrite Hrq1, Hrq2; reflexivity|].
    split; [rewrite run_perform_all_cons, Hrun1, Hrun2; reflexivity|].
    split; [rewrite Hsent2, Hsent1, app_assoc; reflexivity|].
    split; [cbn [List.length]; rewrite Hlen; reflexivity|].
    split; [constructor; assumption|].
    split; [rewrite speed_after_cons, <- Hspeed1; exact Hspeed2|].
    intros Hdon. destruct (Hdon1 Hdon) as [Hr0 Hc1].
    destruct (Hdon2 Hdon) as [Hrs0 Hc2].
    split; [constructor; assumption|]. rewrite Hc2. exact Hc1.
Qed.

End CallFacts.

Section ProcedureEffects.

Context {Dev : Type} `{ArcDevice Dev}.

Implicit Type this : LeachController Dev.

Lemma one_round_trip_run (w : CommandWord) (what : string) (d : double) this :
  is_duration d ->
  one_round_trip w what d this
    (runStateT
       (timing_dsp <- CalculateTiming d ;;
        dReply <- pArcDev_Command TIM_ID w [timing_dsp] ;;
        if dReply =? DON then ret 0
        else print (ErrorReply what dReply) ;; ret (-1)) this).
Proof.
  intros Hd.
  destruct (DurationFacts.iTime_ns_of_duration d Hd) as (n & Hn & _).
  exists n. split; [exact Hn|]. cbv zeta.
  rewrite run_single_word, Hn.
  unfold outcome, after_Command, timing_request, warned.
  destruct (Double.gtb d (Double.of_Z 163)); cbn [pArcDev ItgSpeed sent console].
  - rewrite <- app_assoc. reflexivity.
  - reflexivity.
Qed.

(** X6: on a duration, each of the six procedures that send one timing
    word makes exactly one round trip, with its own command word and the
    word of [CalculateTiming] as the only argument, whether the reply is
    [DON] or not; it leaves [CCDParams.ItgSpeed] as it was, returns 0 or
    -1 by the reply, and on another reply than [DON] writes one line with
    that reply. The line of [ApplyNewSignalIntegralWait] is worded as the
    one of [ApplyNewPedestalIntegralWait]. *)
Theorem single_word_procedures_effect (d : double) this :
  is_duration d ->
  one_round_trip CPR "Error setting the pedestal wait time" d this
    (runStateT (ApplyNewPedestalIntegralWait d) this) /\
  one_round_trip CPO "Error setting the pedestal wait time" d this
    (runStateT (ApplyNewSignalIntegralWait d) this) /\
  one_round_trip DGW "Error setting the DG width / time" d this
    (runStateT (ApplyDGWidth d) this) /\
  one_round_trip OGW "Error setting the OG width / time" d this
    (runStateT (ApplyOGWidth d) this) /\
  one_round_trip RSW "Error setting the RG width / time" d this
    (runStateT (ApplySkippingRGWidth d) this) /\
  one_round_trip SWW "Error setting the SW width / time" d this
    (runStateT (ApplySummingWellWidth d) this).
Proof.
  intros Hd. repeat split; apply one_round_trip_run; exact Hd.
Qed.

(** X7: [ApplyGainAndSpeed(gain, speed)] hands the device one [SGN]
    request with the gain and the speed as they were passed, whatever
    they are, and returns 0 exactly when the reply is 0x00444F4E, -1
    otherwise; it does not store the speed: [CCDParams.ItgSpeed] is as
    before, also when [speed] differs from it. *)
Theorem ApplyGainAndSpeed_effect (gain speed : Z) this :
  exists (r : Z) (this' : LeachController Dev),
    runStateT (ApplyGainAndSpeed gain speed) this = Some (r, this') /\
    sent this' = sent this ++ [mkRequest TIM_ID SGN [gain; speed]] /\
    ItgSpeed this' = ItgSpeed this /\
    pArcDev this' = snd (Command (pArcDev this) (mkRequest TIM_ID SGN [gain; speed])) /\
    (r = 0 <->
     fst (Command (pArcDev this) (mkRequest TIM_ID SGN [gain; speed])) = 0x00444F4E) /\
    (r = -1 <->
     fst (Command (pArcDev this) (mkRequest TIM_ID SGN [gain; speed])) <> 0x00444F4E).
Proof.
  rewrite run_ApplyGainAndSpeed. cbv zeta.
  eexists. eexists. split; [reflexivity|].
  repeat split; try reflexivity;
    first [apply outcome_0 | apply outcome_m1].
Qed.

(** X9: after a sequence of calls on durations, [CCDParams.ItgSpeed] is
    the speed of the last [ApplyNewIntegralTimeAndGain] among them: 1 if
    its time compares below 4.5 and 0 otherwise, whatever was called
    after it and whatever the device replied; with no such call in the
    sequence the speed is the one before. *)
Theorem ItgSpeed_after_calls (l : list Call) this :
  Forall call_ok l ->
  exists (rs : list Z) (this' : LeachController Dev),
    runStateT (perform_all l) this = Some (rs, this') /\
    (forall (l1 l2 : list Call) (t : double) (gain : Z),
       l = l1 ++ CallIntegralTimeAndGain t gain :: l2 ->
       existsb sets_speed l2 = false ->
       ItgSpeed this' = (if Double.ltb t (Double.decimal 45 1) then 1 else 0)) /\
    (existsb sets_speed l = false -> ItgSpeed this' = ItgSpeed this).
Proof.
  intros Hok.
  destruct (perform_all_effect l this Hok)
    as (rqs & rs & this' & _ & Hrun & _ & _ & _ & Hspeed & _).
  exists rs, this'. split; [exact Hrun|].
  assert (Hkeep : forall (l2 : list Call) (v : Z),
            existsb sets_speed l2 = false -> speed_after v l2 = v).
  { induction l2 as [|c l2 IH]; intros v Hno; [reflexivity|].
    cbn [existsb] in Hno. apply orb_false_iff in Hno. destruct Hno as [Hc Hl2].
    rewrite speed_after_cons, IH by exact Hl2.
    destruct c; try reflexivity. discriminate Hc. }
  split.
  - intros l1 l2 t gain Hl Hno. rewrite Hspeed, Hl.
    unfold speed_after. rewrite fold_left_app. cbn [fold_left].
    apply (Hkeep l2). exact Hno.
  - intros Hno. rewrite Hspeed. apply Hkeep. exact Hno.
Qed.

(** X10: with a device that answers [DON] to every request, every call of
    a sequence on durations returns 0, and the console gets no line about
    a reply. *)
Theorem acknowledged_calls_succeed (l : list Call) this :
  (forall (dev : Dev) (rq : Request), fst (Command dev rq) = DON) ->
  Forall call_ok l ->
  exists (rs : list Z) (this' : LeachController Dev),
    runStateT (perform_all l) this = Some (rs, this') /\
    List.length rs = List.length l /\
    Forall (fun r => r = 0) rs /\
    filter is_ErrorReply (console this') = filter is_ErrorReply (console this).
Proof.
  intros Hdon Hok.
  destruct (perform_all_effect l this Hok)
    as (rqs & rs & this' & _ & Hrun & _ & Hlen & _ & _ & Hall).
  destruct (Hall Hdon) as [Hrs Hcon].
  exists rs, this'. repeat split; assumption.
Qed.

End ProcedureEffects.

Section DeviceAfterCalls.

Context {Dev : Type} `{ArcDevice Dev}.

Implicit Type this : LeachController Dev.

(** The device after a call is the device before, handed the requests of
    the call one after the other. *)
Lemma perform_device (c : Call) this (rqs : list Request) (r : Z)
  (this' : LeachController Dev) :
  requests_of c = Some rqs ->
  runStateT (perform c) this = Some (r, this') ->
  pArcDev this' = fold_left (fun dev rq => snd (Command dev rq)) rqs (pArcDev this).
Proof.
  assert (Hsingle : forall (w : CommandWord) (what : string) (d : double),
    timing_requests w d = Some rqs ->
    runStateT
      (timing_dsp <- CalculateTiming d ;;
       dReply <- pArcDev_Command TIM_ID w [timing_dsp] ;;
       if dReply =? DON then ret 0
       else print (ErrorReply what dReply) ;; ret (-1)) this = Some (r, this') ->
    pArcDev this'
      = fold_left (fun dev rq => snd (Command dev rq)) rqs (pArcDev this)).
  { intros w what d Hrq Hrun.
    rewrite run_single_word in Hrun. unfold timing_requests in Hrq.
    destruct (iTime_ns_of d) as [n|]; [|discriminate].
    cbn [option_map] in Hrq. apply ValueFacts.Some_inj in Hrq, Hrun.
    destruct (warned_fields d this) as (_ & Hdev & _).
    assert (Hthis : this' = snd (r, this')) by reflexivity.
    rewrite <- Hrun in Hthis. cbn [snd] in Hthis.
    rewrite Hthis, <- Hrq. unfold after_Command. cbn [pArcDev fold_left].
    rewrite Hdev. reflexivity. }
  destruct c as [t gain|gain speed|d|d|d|d|d|d]; cbn [perform requests_of];
    intros Hrq Hrun; try (eapply Hsingle; eassumption).
  - rewrite run_ApplyNewIntegralTimeAndGain in Hrun.
    destruct (iTime_ns_of t) as [n|]; [|discriminate].
    cbn [option_map] in Hrq. cbv zeta in Hrun.
    apply ValueFacts.Some_inj in Hrq, Hrun.
    destruct (warned_fields t this) as (_ & Hdev & _).
    assert (Hthis : this' = snd (r, this')) by reflexivity.
    rewrite <- Hrun in Hthis. cbn [snd] in Hthis.
    rewrite Hthis, <- Hrq. unfold after_Command, with_ItgSpeed.
    cbn [pArcDev fold_left]. rewrite Hdev. reflexivity.
  - rewrite run_ApplyGainAndSpeed in Hrun. cbv zeta in Hrun.
    apply ValueFacts.Some_inj in Hrq, Hrun.
    assert (Hthis : this' = snd (r, this')) by reflexivity.
    rewrite <- Hrun in Hthis. cbn [snd] in Hthis.
    rewrite Hthis, <- Hrq. reflexivity.
Qed.

Lemma perform_all_device (l : list Call) : forall this (rqs : list Request)
  (rs : list Z) (this' : LeachController Dev),
  requests_of_all l = Some rqs ->
  runStateT (perform_all l) this = Some (rs, this') ->
  pArcDev this' = fold_left (fun dev rq => snd (Command dev rq)) rqs (pArcDev this).
Proof.
  induction l as [|c l IH]; intros this rqs rs this' Hrq Hrun.
  - cbn [requests_of_all perform_all] in Hrq, Hrun. rewrite run_ret in Hrun.
    apply ValueFacts.Some_inj in Hrq, Hrun.
    assert (Hthis : this' = snd (rs, this')) by reflexivity.
    rewrite <- Hrun in Hthis. rewrite Hthis, <- Hrq. reflexivity.
  - cbn [requests_of_all] in Hrq. rewrite run_perform_all_cons in Hrun.
    destruct (requests_of c) as [a|] eqn:Ha; [|discriminate].
    destruct (requests_of_all l) as [b|] eqn:Hb; [|discriminate].
    destruct (runStateT (perform c) this) as [[r this1]|] eqn:Hrun1; [|discriminate].
    destruct (runStateT (perform_all l) this1) as [[rs2 this2]|] eqn:Hrun2;
      [|discriminate].
    apply ValueFacts.Some_inj in Hrq, Hrun.
    assert (Hthis : this' = snd (rs, this')) by reflexivity.
    rewrite <- Hrun in Hthis. cbn [snd] in Hthis.
    rewrite Hthis, <- Hrq, fold_left_app.
    rewrite (IH this1 b rs2 this2 eq_refl Hrun2).
    rewrite (perform_device c this a r this1 Ha Hrun1). reflexivity.
Qed.

End DeviceAfterCalls.

(** X8: the requests that a sequence of calls on durations hands the
    device are fixed by the arguments of the calls: on every device and
    from every state of the controller the sequence runs to its end,
    every call returns 0 or -1, and the requests on record grow by the
    same list, two requests for [ApplyNewIntegralTimeAndGain] and one for
    each other call. No reply makes a call skip, repeat or change a
    request. The device has been handed exactly these requests, in this
    order. *)
Theorem requests_fixed_by_calls (l : list Call) :
  Forall call_ok l ->
  exists rqs : list Request,
    requests_of_all l = Some rqs /\
    List.length rqs
      = (List.length l + List.length (filter sets_speed l))%nat /\
    forall (Dev : Type) (Device : ArcDevice Dev) (this : LeachController Dev),
    exists (rs : list Z) (this' : LeachController Dev),
      runStateT (perform_all l) this = Some (rs, this') /\
      List.length rs = List.length l /\
      Forall (fun r => r = 0 \/ r = -1) rs /\
      sent this' = sent this ++ rqs /\
      pArcDev this'
        = fold_left (fun dev rq => snd (Command dev rq)) rqs (pArcDev this).
Proof.
  intros Hok.
  destruct (perform_all_effect l (mkController 0 tt [] []) Hok)
    as (rqs & _ & _ & Hrqs & _).
  exists rqs. split; [exact Hrqs|]. split.
  - clear Hok. revert rqs Hrqs.
    induction l as [|c l IH]; intros rqs Hrqs.
    + cbn in Hrqs. apply ValueFacts.Some_inj in Hrqs. subst rqs. reflexivity.
    + cbn [requests_of_all] in Hrqs.
      destruct (requests_of c) as [a|] eqn:Ha; [|discriminate].
      destruct (requests_of_all l) as [b|] eqn:Hb; [|discriminate].
      apply ValueFacts.Some_inj in Hrqs. subst rqs.
      rewrite length_app, (IH b eq_refl). cbn [filter List.length].
      assert (Hlen : List.length a = if sets_speed c then 2%nat else 1%nat).
      { destruct c; cbn [requests_of sets_speed] in *; unfold timing_requests in *;
          try (destruct (iTime_ns_of _); [|discriminate]);
          apply ValueFacts.Some_inj in Ha; subst a; reflexivity. }
      rewrite Hlen. destruct (sets_speed c); cbn [List.length]; lia.
  - intros Dev Device this.
    destruct (perform_all_effect l this Hok)
      as (rqs' & rs & this' & Hrqs' & Hrun & Hsent & Hlen & Hrs & _).
    rewrite Hrqs in Hrqs'. apply ValueFacts.Some_inj in Hrqs'. subst rqs'.
    exists rs, this'.
    split; [exact Hrun|]. split; [exact Hlen|]. split; [exact Hrs|].
    split; [exact Hsent|].
    apply (perform_all_device l this rqs rs this' Hrqs Hrun).
Qed.

(* ===================================================================== *)
(** ** The two programs *)
(* ===================================================================== *)

(** X11: [CCDDToggleBias] looks at its first argument only as one of the
    four exact texts on, 1, off and 0. With any other first argument, or
    none, it writes the usage line to the error stream and returns 1
    without constructing the controller. With one of the four it
    constructs the controller with an empty file name, stores the voltage
    (the second argument through [atof], and 4.88 without one) before it
    toggles, toggles on for on and 1 and off for off and 0, and
    returns 0. *)
Theorem CCDDToggleBias_main_steps (atof : string -> double) (argv : list string) :
  let direction := nth 1 argv EmptyString in
  (In direction ["on"; "1"; "off"; "0"]%string ->
   exists (on : bool) (volts : double),
     CCDDToggleBias.main atof argv =
       (0, [CCDDToggleBias.Cout "Switching relay bias ";
            CCDDToggleBias.Cout (if on then "on" else "off");
            CCDDToggleBias.Cout "...";
            CCDDToggleBias.Construct EmptyString;
            CCDDToggleBias.SetBattRelay volts;
            CCDDToggleBias.CCDBiasToggle on;
            CCDDToggleBias.Cout " OK!";
            CCDDToggleBias.Endl]) /\
     (on = true <-> direction = "on"%string \/ direction = "1"%string) /\
     volts = match argv with
             | _ :: _ :: v :: _ => atof v
             | _ => Double.decimal 488 2
             end) /\
  (~ In direction ["on"; "1"; "off"; "0"]%string ->
   CCDDToggleBias.main atof argv =
     (1, [CCDDToggleBias.Cerr "Usage: ./CCDDToggleBias <on|off> [<volts=4.88>]"])).
Proof.
  intros direction.
  assert (Hdir : (if Z.of_nat (List.length argv) >? 1
                  then nth 1 argv EmptyString else EmptyString) = direction).
  { unfold direction. destruct argv as [|a0 [|a1 rest]]; try reflexivity.
    replace (Z.of_nat (List.length (a0 :: a1 :: rest)) >? 1) with true;
      [reflexivity|].
    symmetry. apply Z.gtb_lt. cbn [List.length]. lia. }
  assert (Hvolts : (if Z.of_nat (List.length argv) >? 2
                    then atof (nth 2 argv EmptyString) else Double.decimal 488 2)
                   = match argv with
                     | _ :: _ :: v :: _ => atof v
                     | _ => Double.decimal 488 2
                     end).
  { destruct argv as [|a0 [|a1 [|a2 rest]]]; try reflexivity.
    replace (Z.of_nat (List.length (a0 :: a1 :: a2 :: rest)) >? 2) with true;
      [reflexivity|].
    symmetry. apply Z.gtb_lt. cbn [List.length]. lia. }
  unfold CCDDToggleBias.main. cbv zeta. rewrite Hdir, Hvolts.
  clearbody direction. clear Hdir Hvolts.
  destruct (in_dec string_dec direction ["on"; "1"; "off"; "0"]%string) as [Hin|Hnot].
  - split; [intros _|intros Hnot; contradiction].
    cbn [In] in Hin.
    destruct Hin as [<-|[<-|[<-|[<-|[]]]]].
    + exists true. eexists. split; [reflexivity|]. split; [|reflexivity].
      split; [intros _; left; reflexivity|reflexivity].
    + exists true. eexists. split; [reflexivity|]. split; [|reflexivity].
      split; [intros _; right; reflexivity|reflexivity].
    + exists false. eexists. split; [reflexivity|]. split; [|reflexivity].
      split; [discriminate|intros [Hx|Hx]; discriminate Hx].
    + exists false. eexists. split; [reflexivity|]. split; [|reflexivity].
      split; [discriminate|intros [Hx|Hx]; discriminate Hx].
  - split; [intros Hin; contradiction|intros _].
    destruct (String.eqb_spec direction "on") as [Hx|_];
      [exfalso; apply Hnot; rewrite Hx; cbn [In]; auto 10|].
    destruct (String.eqb_spec direction "1") as [Hx|_];
      [exfalso; apply Hnot; rewrite Hx; cbn [In]; auto 10|].
    destruct (String.eqb_spec direction "off") as [Hx|_];
      [exfalso; apply Hnot; rewrite Hx; cbn [In]; auto 10|].
    destruct (String.eqb_spec direction "0") as [Hx|_];
      [exfalso; apply Hnot; rewrite Hx; cbn [In]; auto 10|].
    reflexivity.
Qed.

(** X12: [CCDDPerformEraseProcedure] first waits 10 seconds, constructs
    the controller from config/Config.ini and checks the settings, in
    this order. [PerformEraseProcedure] and [IdleClockToggle] are called,
    once each and in this order after 5 more seconds, exactly when the
    status returned by the check is 0. For any other status neither is
    called, the lines on the config file and on the sequencer are written
    exactly when their flags are set, and the last line says that the
    erase was not performed. The program returns 0 in both cases. *)
Theorem CCDDPerformEraseProcedure_main_steps (status : Z) (config sequencer : bool) :
  let run := CCDDPerformEraseProcedure.main (status, config, sequencer) in
  fst run = 0 /\
  firstn 5 (snd run) =
    [CCDDPerformEraseProcedure.Cout "This code will perform an erase procedure.\n";
     CCDDPerformEraseProcedure.Cout "The process starts in 10 seconds.\n";
     CCDDPerformEraseProcedure.SleepSeconds 10;
     CCDDPerformEraseProcedure.Construct "config/Config.ini";
     CCDDPerformEraseProcedure.LoadAndCheckForSettingsChange] /\
  (status = 0 ->
   skipn 5 (snd run) =
     [CCDDPerformEraseProcedure.SleepSeconds 5;
      CCDDPerformEraseProcedure.PerformEraseProcedure;
      CCDDPerformEraseProcedure.IdleClockToggle;
      CCDDPerformEraseProcedure.Cout "Leach system is now ready to take data.\n"]) /\
  (status <> 0 ->
   ~ In CCDDPerformEraseProcedure.PerformEraseProcedure (snd run) /\
   ~ In CCDDPerformEraseProcedure.IdleClockToggle (snd run) /\
   (In (CCDDPerformEraseProcedure.Cout
          "Error: The config file has changed but the new settings were not uploaded.\n")
       (snd run) <-> config = true) /\
   (In (CCDDPerformEraseProcedure.Cout
          "Error: The sequencer has changed but it was not uploaded.\n")
       (snd run) <-> sequencer = true) /\
   last (snd run) (CCDDPerformEraseProcedure.SleepSeconds 0) =
     CCDDPerformEraseProcedure.Cout
       "Erase procedure was not performed. Please resolve the conflicts in the config section first.\n").
Proof.
  intros run. unfold run, CCDDPerformEraseProcedure.main.
  cbn [fst snd]. split; [reflexivity|]. split; [reflexivity|]. split.
  - intros ->. reflexivity.
  - intros Hne.
    replace (status =? 0) with false by (symmetry; apply Z.eqb_neq; exact Hne).
    destruct config, sequencer; cbn [app In last];
      repeat split; unfold not; intros;
      repeat match goal with
             | Hx : _ \/ _ |- _ => destruct Hx
             | Hx : False |- _ => destruct Hx
             end;
      first [reflexivity | congruence | auto 20].
Qed.

(* ===================================================================== *)
(** ** The further properties at particular arguments *)
(* ===================================================================== *)

(** X2 at 1.2 microseconds: 30 steps of 40 ns. *)
Lemma CalculateTiming_word_shape_at_1_2 :
  is_duration (Double.decimal 12 1) /\
  exists w : Z,
    evalStateT (CalculateTiming (Double.decimal 12 1)) (fresh []) = Some w /\
    w = 0x1E0000 /\ Z.testbit w 23 = false /\ bits 22 16 w = 30.
Proof.
  assert (Hd : is_duration (Double.decimal 12 1)) by (split; reflexivity).
  split; [exact Hd|].
  destruct (CalculateTiming_word_shape (Double.decimal 12 1) (fresh []) Hd)
    as (n & w & Hn & Hw & Hmul & _ & _ & Hbit & Hfine).
  assert (Hn' : iTime_ns_of (Double.decimal 12 1) = Some 1200) by reflexivity.
  rewrite Hn' in Hn. apply ValueFacts.Some_inj in Hn. subst n.
  assert (Hw' : w = 0x1E0000) by (rewrite Hmul; reflexivity).
  assert (Hb : Z.testbit w 23 = false) by (rewrite Hbit; reflexivity).
  exists w. split; [exact Hw|]. split; [exact Hw'|]. split; [exact Hb|].
  destruct (Hfine Hb) as (_ & H22 & _). rewrite H22. reflexivity.
Defined.

(** X3 at 39.99 microseconds: 124 steps of 320 ns, 39680 ns. *)
Lemma CalculateTiming_never_late_at_39_99 :
  is_duration (Double.decimal 3999 2) /\
  exists w : Z,
    evalStateT (CalculateTiming (Double.decimal 3999 2)) (fresh []) = Some w /\
    timing_ns (bits 23 16 w) <= 39990 /\
    39990 < timing_ns (bits 23 16 w) + (if Z.testbit w 23 then 320 else 40).
Proof.
  assert (Hd : is_duration (Double.decimal 3999 2)) by (split; reflexivity).
  split; [exact Hd|].
  destruct (CalculateTiming_never_late (Double.decimal 3999 2) (fresh []) Hd)
    as (n & w & Hn & Hw & Hbound).
  assert (Hn' : iTime_ns_of (Double.decimal 3999 2) = Some 39990) by reflexivity.
  rewrite Hn' in Hn. apply ValueFacts.Some_inj in Hn. subst n.
  exists w. split; [exact Hw|]. apply Hbound. reflexivity.
Defined.

(** X4 at 0.319 microseconds: the steps of 320 ns are chosen and none is
    counted. *)
Lemma CalculateTiming_coarse_near_multiple_at_0_319 :
  is_duration (Double.decimal 319 3) /\
  exists w : Z,
    evalStateT (CalculateTiming (Double.decimal 319 3)) (fresh []) = Some w /\
    Z.testbit w 23 = true /\
    300 <= 319 - timing_ns (bits 23 16 w).
Proof.
  assert (Hd : is_duration (Double.decimal 319 3)) by (split; reflexivity).
  split; [exact Hd|].
  destruct (CalculateTiming_coarse_near_multiple (Double.decimal 319 3) (fresh []) Hd)
    as (n & w & Hn & Hw & _ & Hshort).
  assert (Hn' : iTime_ns_of (Double.decimal 319 3) = Some 319) by reflexivity.
  rewrite Hn' in Hn. apply ValueFacts.Some_inj in Hn. subst n.
  exists w. split; [exact Hw|].
  apply Hshort; [lia|vm_compute; discriminate|vm_compute; discriminate].
Defined.

(** X5 at 1.2 microseconds. *)
Lemma CalculateTiming_exact_at_1_2 :
  is_duration (Double.decimal 12 1) /\
  exists w : Z,
    evalStateT (CalculateTiming (Double.decimal 12 1)) (fresh []) = Some w /\
    timing_ns (bits 23 16 w) = 1200.
Proof.
  assert (Hd : is_duration (Double.decimal 12 1)) by (split; reflexivity).
  split; [exact Hd|].
  destruct (CalculateTiming_exact_on_multiples (Double.decimal 12 1) (fresh []) Hd)
    as (n & w & Hn & Hw & Hexact).
  assert (Hn' : iTime_ns_of (Double.decimal 12 1) = Some 1200) by reflexivity.
  rewrite Hn' in Hn. apply ValueFacts.Some_inj in Hn. subst n.
  exists w. split; [exact Hw|].
  apply Hexact. left. split; [lia|reflexivity].
Defined.

(** X6 at 164 microseconds, with a device that answers 0xDEAD. *)
Lemma single_word_procedures_effect_at_164 :
  is_duration (Double.of_Z 164) /\
  runStateT (ApplyNewSignalIntegralWait (Double.of_Z 164)) (fresh [0xDEAD]) =
    Some (-1,
          mkController 0 [] [mkRequest TIM_ID CPO [0x1FD0000]]
            [OutOfBounds; ErrorReply "Error setting the pedestal wait time" 0xDEAD]).
Proof.
  assert (Hd : is_duration (Double.of_Z 164)) by (split; reflexivity).
  split; [exact Hd|].
  destruct (single_word_procedures_effect (Double.of_Z 164) (fresh [0xDEAD]) Hd)
    as (_ & (n & Hn & Hrun) & _).
  assert (Hn' : iTime_ns_of (Double.of_Z 164) = Some 163000) by reflexivity.
  rewrite Hn' in Hn. apply ValueFacts.Some_inj in Hn. subst n.
  exact Hrun.
Defined.

(** X8 on two calls. *)
Lemma requests_fixed_by_calls_on_two :
  Forall call_ok [CallIntegralTimeAndGain (Double.of_Z 10) 5;
                  CallDGWidth (Double.decimal 12 1)] /\
  exists rqs : list Request,
    rqs = [mkRequest TIM_ID SGN [5; 0]; mkRequest TIM_ID CIT [0x9F0000];
           mkRequest TIM_ID DGW [0x1E0000]] /\
    exists (rs : list Z) (this' : LeachController (list Z)),
      runStateT (perform_all [CallIntegralTimeAndGain (Double.of_Z 10) 5;
                              CallDGWidth (Double.decimal 12 1)])
        (fresh [0xDEAD; 0xBEEF]) = Some (rs, this') /\
      sent this' = rqs /\
      pArcDev this' = [].
Proof.
  assert (Hok : Forall call_ok [CallIntegralTimeAndGain (Double.of_Z 10) 5;
                                CallDGWidth (Double.decimal 12 1)]).
  { constructor; [split; reflexivity|].
    constructor; [split; reflexivity|constructor]. }
  split; [exact Hok|].
  destruct (requests_fixed_by_calls _ Hok) as (rqs & Hrqs & _ & Hall).
  assert (Hrqs' : requests_of_all
                    [CallIntegralTimeAndGain (Double.of_Z 10) 5;
                     CallDGWidth (Double.decimal 12 1)]
                  = Some [mkRequest TIM_ID SGN [5; 0];
                          mkRequest TIM_ID CIT [0x9F0000];
                          mkRequest TIM_ID DGW [0x1E0000]])
    by (vm_compute; reflexivity).
  rewrite Hrqs' in Hrqs. apply ValueFacts.Some_inj in Hrqs.
  exists rqs. split; [symmetry; exact Hrqs|].
  destruct (Hall (list Z) ScriptedDevice (fresh [0xDEAD; 0xBEEF]))
    as (rs & this' & Hrun & _ & _ & Hsent & Hdev).
  exists rs, this'. split; [exact Hrun|]. split; [exact Hsent|].
  rewrite Hdev, <- Hrqs. reflexivity.
Defined.

(** X9 on three calls, the first of which sets the speed. *)
Lemma ItgSpeed_after_three_calls :
  Forall call_ok [CallIntegralTimeAndGain (Double.decimal 44 1) 5;
                  CallGainAndSpeed 1 0;
                  CallDGWidth (Double.of_Z 10)] /\
  exists (rs : list Z) (this' : LeachController (list Z)),
    runStateT (perform_all [CallIntegralTimeAndGain (Double.decimal 44 1) 5;
                            CallGainAndSpeed 1 0;
                            CallDGWidth (Double.of_Z 10)])
      (fresh [0xDEAD]) = Some (rs, this') /\
    ItgSpeed this' = 1.
Proof.
  assert (Hok : Forall call_ok [CallIntegralTimeAndGain (Double.decimal 44 1) 5;
                                CallGainAndSpeed 1 0;
                                CallDGWidth (Double.of_Z 10)]).
  { constructor; [split; reflexivity|].
    constructor; [exact I|].
    constructor; [split; reflexivity|constructor]. }
  split; [exact Hok|].
  destruct (ItgSpeed_after_calls _ (fresh [0xDEAD]) Hok)
    as (rs & this' & Hrun & Hlast & _).
  exists rs, this'. split; [exact Hrun|].
  apply (Hlast [] [CallGainAndSpeed 1 0; CallDGWidth (Double.of_Z 10)]
               (Double.decimal 44 1) 5); reflexivity.
Defined.

(** X10 with the device that answers [DON] to everything. *)
Lemma acknowledged_calls_succeed_on_two :
  (forall (dev : unit) (rq : Request), fst (Command dev rq) = DON) /\
  Forall call_ok [CallIntegralTimeAndGain (Double.of_Z 10) 5;
                  CallSummingWellWidth (Double.of_Z 164)] /\
  exists (rs : list Z) (this' : LeachController unit),
    runStateT (perform_all [CallIntegralTimeAndGain (Double.of_Z 10) 5;
                            CallSummingWellWidth (Double.of_Z 164)])
      (mkController 0 tt [] []) = Some (rs, this') /\
    Forall (fun r => r = 0) rs.
Proof.
  assert (Hdon : forall (dev : unit) (rq : Request), fst (Command dev rq) = DON)
    by (intros dev rq; reflexivity).
  assert (Hok : Forall call_ok [CallIntegralTimeAndGain (Double.of_Z 10) 5;
                                CallSummingWellWidth (Double.of_Z 164)]).
  { constructor; [split; reflexivity|].
    constructor; [split; reflexivity|constructor]. }
  split; [exact Hdon|]. split; [exact Hok|].
  destruct (acknowledged_calls_succeed _ (mkController 0 tt [] []) Hdon Hok)
    as (rs & this' & Hrun & _ & Hrs & _).
  exists rs, this'. split; [exact Hrun|exact Hrs].
Defined.

(** X11 with the arguments on and 3.3, and with the argument ON. *)
Lemma CCDDToggleBias_main_on :
  In "on"%string ["on"; "1"; "off"; "0"]%string /\
  ~ In "ON"%string ["on"; "1"; "off"; "0"]%string /\
  fst (CCDDToggleBias.main (fun _ => Double.decimal 33 1)
         ["./CCDDToggleBias"; "on"; "3.3"]%string) = 0 /\
  CCDDToggleBias.main (fun _ => Double.decimal 33 1)
    ["./CCDDToggleBias"; "ON"; "3.3"]%string =
    (1, [CCDDToggleBias.Cerr "Usage: ./CCDDToggleBias <on|off> [<volts=4.88>]"]).
Proof.
  assert (Hin : In "on"%string ["on"; "1"; "off"; "0"]%string)
    by (left; reflexivity).
  assert (Hnot : ~ In "ON"%string ["on"; "1"; "off"; "0"]%string).
  { intros [Hx|[Hx|[Hx|[Hx|[]]]]]; discriminate Hx. }
  split; [exact Hin|]. split; [exact Hnot|]. split.
  - destruct (proj1 (CCDDToggleBias_main_steps (fun _ => Double.decimal 33 1)
                       ["./CCDDToggleBias"; "on"; "3.3"]%string) Hin)
      as (on & volts & Hrun & _).
    rewrite Hrun. reflexivity.
  - exact (proj2 (CCDDToggleBias_main_steps (fun _ => Double.decimal 33 1)
                    ["./CCDDToggleBias"; "ON"; "3.3"]%string) Hnot).
Defined.

(** X12 with status 1 and the flag of the config file set. *)
Lemma CCDDPerformEraseProcedure_main_status_1 :
  1 <> 0 /\
  ~ In CCDDPerformEraseProcedure.PerformEraseProcedure
       (snd (CCDDPerformEraseProcedure.main (1, true, false))) /\
  fst (CCDDPerformEraseProcedure.main (1, true, false)) = 0.
Proof.
  assert (Hne : 1 <> 0) by discriminate.
  split; [exact Hne|].
  destruct (CCDDPerformEraseProcedure_main_steps 1 true false)
    as (Hret & _ & _ & Hfail).
  split; [exact (proj1 (Hfail Hne))|exact Hret].
Defined.

(* ===================================================================== *)
(** ** Negative arguments *)
(* ===================================================================== *)

Module NegativeFacts.

(** Setting bits does not lower a number. *)
Lemma lor_lower (a b : Z) : 0 <= b -> a <= Z.lor a b.
Proof.
  intros Hb.
  assert (Hsplit : Z.lor a b = Z.lor a (Z.ldiff b a)).
  { apply Z.bits_inj'. intros n Hn.
    rewrite !Z.lor_spec, Z.ldiff_spec.
    destruct (Z.testbit a n), (Z.testbit b n); reflexivity. }
  assert (Hdisj : Z.land a (Z.ldiff b a) = 0).
  { apply Z.bits_inj'. intros n Hn.
    rewrite Z.land_spec, Z.ldiff_spec, Z.bits_0.
    destruct (Z.testbit a n), (Z.testbit b n); reflexivity. }
  assert (Hnn : 0 <= Z.ldiff b a) by (apply Z.ldiff_nonneg; left; exact Hb).
  rewrite Hsplit, <- Z.lxor_lor, <- Z.add_nocarry_lxor by exact Hdisj. lia.
Qed.

(** A shift by 16 of a value from [-2^15] to [2^15] does not overflow. *)
Lemma shl_16_signed (x : Z) : - 2 ^ 15 <= x < 2 ^ 15 -> Int.shl x 16 = x * 65536.
Proof.
  intros Hx. unfold Int.shl. rewrite Z.shiftl_mul_pow2 by lia.
  change (2 ^ 16) with 65536. apply IntFacts.wrap_small.
  change (2 ^ 15) with 32768 in Hx. change (2 ^ 31) with 2147483648. lia.
Qed.

(** The remainder of a negative number, rounded toward zero. *)
Lemma rem_negative (n b : Z) : n < 0 -> 0 < b -> - b < Z.rem n b <= 0.
Proof.
  intros Hn Hb.
  pose proof (Z.rem_bound_abs n b ltac:(lia)).
  pose proof (Z.rem_nonpos n b ltac:(lia) ltac:(lia)). lia.
Qed.

(** On a negative count the remainders are not positive and the one by
    320 is not above the one by 40: the steps of 320 ns are chosen. *)
Lemma coarse_negative (n : Z) : n < 0 -> coarse n = true.
Proof.
  intros Hn. unfold coarse, bigreminder_of, littlereminder_of, Int.rem.
  pose proof (rem_negative n 320 ltac:(lia) ltac:(lia)) as H320.
  pose proof (rem_negative n 40 ltac:(lia) ltac:(lia)) as H40.
  pose proof (Z.quot_rem' n 320) as E320.
  pose proof (Z.quot_rem' n 40) as E40.
  destruct (Z.gtb_spec n 4000); [lia|]. cbn [orb].
  destruct (Z.gtb_spec (Z.rem n 320) 160); [lia|].
  destruct (Z.gtb_spec (Z.rem n 40) 20); [lia|].
  apply Z.leb_le. lia.
Qed.

Lemma timing_dsp_negative (n : Z) :
  -10485760 < n < 0 ->
  timing_dsp_of n = Z.lor (Z.quot n 320) 0x80 * 65536 /\
  (-320 < n -> timing_dsp_of n = 0x800000) /\
  (n <= -320 -> timing_dsp_of n < 0).
Proof.
  intros Hn. unfold timing_dsp_of, timing_byte_of.
  rewrite coarse_negative by lia. unfold Int.or, Int.div.
  pose proof (rem_negative n 320 ltac:(lia) ltac:(lia)) as H320.
  pose proof (Z.quot_rem' n 320) as E320.
  assert (Hq : -32768 <= Z.quot n 320 <= 0) by lia.
  pose proof (lor_lower (Z.quot n 320) 0x80 ltac:(lia)) as Hlow.
  assert (Hup : Z.lor (Z.quot n 320) 0x80 <= 128).
  { destruct (Z.eq_dec (Z.quot n 320) 0) as [->|Hne]; [cbn; lia|].
    assert (Z.lor (Z.quot n 320) 0x80 < 0) by (apply Z.lor_neg; left; lia). lia. }
  rewrite shl_16_signed by (change (2 ^ 15) with 32768; lia).
  split; [reflexivity|]. split.
  - intros Hgt. replace (Z.quot n 320) with 0 by lia. reflexivity.
  - intros Hle.
    assert (Z.lor (Z.quot n 320) 0x80 < 0) by (apply Z.lor_neg; left; lia). lia.
Qed.

End NegativeFacts.

Section NegativeArguments.

Context {Dev : Type}.

Implicit Type this : LeachController Dev.

(** X13: [CalculateTiming] has no lower bound on its argument. Whenever
    the nanosecond count [n] is negative (down to -10485760) the steps of
    320 ns are chosen and the word is [(n / 320 | 0x80) << 16], with the
    quotient rounded toward zero: a count above -320 gets 0x800000, the
    word of 0 ns, and a count of -320 or below gets a negative word. *)
Theorem CalculateTiming_negative (d : double) (n : Z) this :
  iTime_ns_of d = Some n ->
  -10485760 < n < 0 ->
  coarse n = true /\
  exists w : Z,
    evalStateT (CalculateTiming d) this = Some w /\
    w = Z.lor (Z.quot n 320) 0x80 * 65536 /\
    (-320 < n -> w = 0x800000) /\
    (n <= -320 -> w < 0).
Proof.
  intros Hn Hr. split; [apply NegativeFacts.coarse_negative; lia|].
  exists (timing_dsp_of n).
  split; [unfold evalStateT; rewrite run_CalculateTiming, Hn; reflexivity|].
  apply NegativeFacts.timing_dsp_negative. exact Hr.
Qed.

End NegativeArguments.

(** X13 at -1 microsecond. *)
Lemma CalculateTiming_negative_at_minus_1 :
  iTime_ns_of (Double.of_Z (-1)) = Some (-1000) /\
  -10485760 < -1000 < 0 /\
  exists w : Z,
    evalStateT (CalculateTiming (Double.of_Z (-1))) (fresh []) = Some w /\ w < 0.
Proof.
  assert (Hn : iTime_ns_of (Double.of_Z (-1)) = Some (-1000)) by reflexivity.
  assert (Hr : -10485760 < -1000 < 0) by lia.
  split; [exact Hn|]. split; [exact Hr|].
  destruct (CalculateTiming_negative (Double.of_Z (-1)) (-1000) (fresh []) Hn Hr)
    as (_ & w & Hw & _ & _ & Hneg).
  exists w. split; [exact Hw|]. apply Hneg. lia.
Defined.
